(** * scripts/train_risk_model.py: a shallow embedding

    The script is a straight-line procedure: resolve the input path, check
    that the file exists, parse it with pandas, check the seven required
    columns, split with scikit-learn, fit a random forest, print accuracy and
    feature importances, and try to persist the model with joblib.

    Everything the script itself decides (control flow, the order of effects,
    the arguments it passes, the text it prints, which exception it catches)
    is modelled here as it is written.  The third-party code it calls
    (pathlib, pandas, scikit-learn, numpy formatting, joblib) is not part of
    the repository: it is a record of functions, [Host], each of which may
    raise, as any Python call may.  Float64 values are idealised as
    rationals. *)

From Stdlib Require Import ZArith QArith Qround Qabs List String Ascii Bool.
From Stdlib Require Import Permutation Lia Lqa DecimalString.
Import ListNotations.

Local Open Scope Z_scope.
Local Open Scope string_scope.

(** ** Python values and text *)

Module Py.

(** Exception classes that can reach the script.  [ModuleNotFoundError] is a
    subclass of [ImportError]; no other class listed here is. *)
Inductive exn : Type :=
| ImportError
| ModuleNotFoundError
| KeyError
| ValueError
| TypeError
| OSError
| EmptyDataError
| ParserError
| PicklingError
| MemoryError.

(** [isinstance(e, ImportError)], the test made by [except ImportError]. *)
Definition isinstance_ImportError (e : exn) : bool :=
  match e with
  | ImportError | ModuleNotFoundError => true
  | _ => false
  end.

(** The result of a call into library code. *)
Inductive result (A : Type) : Type :=
| Ok (a : A)
| Raise (e : exn).
Arguments Ok {A} a.
Arguments Raise {A} e.

Definition dquote : ascii := ascii_of_nat 34.
Definition squote : ascii := ascii_of_nat 39.
Definition backslash : ascii := ascii_of_nat 92.

Fixpoint contains_char (c : ascii) (s : string) : bool :=
  match s with
  | EmptyString => false
  | String d s' => Ascii.eqb c d || contains_char c s'
  end.

Definition hex_digit (n : nat) : ascii :=
  nth n (list_ascii_of_string "0123456789abcdef") "0"%char.

(** One character of [repr(str)], inside quotes of kind [q]. *)
Definition repr_char (q c : ascii) : string :=
  let n := nat_of_ascii c in
  if Ascii.eqb c backslash then String backslash (String backslash EmptyString)
  else if Ascii.eqb c q then String backslash (String q EmptyString)
  else if Nat.eqb n 10 then String backslash "n"
  else if Nat.eqb n 13 then String backslash "r"
  else if Nat.eqb n 9 then String backslash "t"
  else if Nat.ltb n 32 || Nat.eqb n 127 then
    String backslash
      (String "x" (String (hex_digit (n / 16)) (String (hex_digit (n mod 16)) EmptyString)))
  else String c EmptyString.

Fixpoint repr_body (q : ascii) (s : string) : string :=
  match s with
  | EmptyString => EmptyString
  | String c s' => repr_char q c ++ repr_body q s'
  end.

(** [repr(s)] for a [str]: single quotes, unless the text has a single quote
    and no double quote.  Bytes above 127 stand for printable non-ASCII text
    and are kept. *)
Definition repr_str (s : string) : string :=
  let q := if contains_char squote s && negb (contains_char dquote s)
           then dquote else squote in
  String q (repr_body q s ++ String q EmptyString).

Fixpoint join (sep : string) (l : list string) : string :=
  match l with
  | [] => EmptyString
  | [x] => x
  | x :: rest => x ++ sep ++ join sep rest
  end.

(** [str(l)] for a list of strings. *)
Definition str_list (l : list string) : string :=
  "[" ++ join ", " (map repr_str l) ++ "]".

(** A [dict] keeps insertion order; assigning to a key that is present
    replaces its value in place. *)
Fixpoint dict_set {V : Type} (k : string) (v : V) (d : list (string * V))
  : list (string * V) :=
  match d with
  | [] => [(k, v)]
  | (k', v') :: d' =>
      if String.eqb k k' then (k, v) :: d' else (k', v') :: dict_set k v d'
  end.

(** [dict(pairs)]. *)
Definition dict {V : Type} (pairs : list (string * V)) : list (string * V) :=
  fold_left (fun d kv => dict_set (fst kv) (snd kv) d) pairs [].

(** [str(d)] for a dict with string keys, given the [repr] of its values. *)
Definition str_dict {V : Type} (repr_v : V -> string) (d : list (string * V))
  : string :=
  "{" ++ join ", " (map (fun kv => repr_str (fst kv) ++ ": " ++ repr_v (snd kv)) d)
      ++ "}".

(** [substring_of a b]: [a] occurs in [b]. *)
Definition substring_of (a b : string) : Prop :=
  exists pre post, b = pre ++ a ++ post.

End Py.
Export Py.

(** ** Tables *)

Module Frame.

(** A parsed CSV cell. *)
Inductive cell : Type :=
| Int (z : Z)
| Float (q : Q)
| Str (s : string)
| NaN.

Definition cell_eq_dec (a b : cell) : {a = b} + {a <> b}.
Proof.
  decide equality.
  - apply Z.eq_dec.
  - destruct q as [n d], q0 as [n0 d0].
    destruct (Z.eq_dec n n0) as [->|Hn]; [|right; congruence].
    destruct (Pos.eq_dec d d0) as [->|Hd]; [left; reflexivity|right; congruence].
  - apply string_dec.
Defined.

(** A column of values. *)
Definition Series : Type := list cell.

(** A table: its columns in header order, each with its name.  The parser
    renames repeated header names, so names are distinct in a parsed table
    ([NoDup (columns df)]); nothing below assumes it unless it says so. *)
Definition DataFrame : Type := list (string * Series).

(** [df.columns]. *)
Definition columns (df : DataFrame) : list string := map fst df.

(** [col in df.columns]. *)
Definition has_column (col : string) (df : DataFrame) : bool :=
  existsb (String.eqb col) (columns df).

(** [df[col]] for one label; [KeyError] when it is absent. *)
Fixpoint getitem (col : string) (df : DataFrame) : result Series :=
  match df with
  | [] => Raise KeyError
  | (name, s) :: df' => if String.eqb col name then Ok s else getitem col df'
  end.

(** [df[cols]] for a list of labels: the named columns, in the order of
    [cols]; [KeyError] when one is absent. *)
Fixpoint select (cols : list string) (df : DataFrame) : result DataFrame :=
  match cols with
  | [] => Ok []
  | col :: rest =>
      match getitem col df with
      | Raise e => Raise e
      | Ok s =>
          match select rest df with
          | Raise e => Raise e
          | Ok r => Ok ((col, s) :: r)
          end
      end
  end.

Definition column_eq_dec (a b : string * Series) : {a = b} + {a <> b}.
Proof.
  decide equality.
  - apply (list_eq_dec cell_eq_dec).
  - apply string_dec.
Defined.

(** Taking [x] out of [l] once. *)
Fixpoint remove_one (x : string * Series) (l : DataFrame) : option DataFrame :=
  match l with
  | [] => None
  | c :: l' =>
      if column_eq_dec x c then Some l'
      else match remove_one x l' with
           | Some r => Some (c :: r)
           | None => None
           end
  end.

(** [same_columns df df']: the two tables have the same columns, in some
    order. *)
Fixpoint same_columns (df df' : DataFrame) : bool :=
  match df with
  | [] => match df' with [] => true | _ => false end
  | c :: rest =>
      match remove_one c df' with
      | Some r => same_columns rest r
      | None => false
      end
  end.

(** How many rows carry label [c]. *)
Definition class_count (c : cell) (y : Series) : Z :=
  Z.of_nat (count_occ cell_eq_dec y c).

Definition rows (y : Series) : Z := Z.of_nat (List.length y).

End Frame.
Export Frame.

(** ** Numbers *)

Module Num.

(** Round to the nearest integer, ties to even (numpy's [rint]). *)
Definition rint (q : Q) : Z :=
  let f := Qfloor q in
  match Qcompare (q - inject_Z f) (1 # 2) with
  | Lt => f
  | Gt => f + 1
  | Eq => if Z.even f then f else f + 1
  end.

(** An exact value rounded to four decimals: the nearest whole number of
    ten-thousandths, ties to even.  numpy's [round(4)] does this in double
    arithmetic and is a function of the host ([np_round4] below). *)
Definition round4 (q : Q) : Q := Qmake (rint (q * inject_Z 10000)) 10000.

Definition Qsum (l : list Q) : Q := fold_right Qplus (0 # 1)%Q l.

End Num.
Export Num.

(** ** The script *)

(** [pathlib] expressions the script builds. *)
Inductive Path : Type :=
| PathOf (s : string)                   (* Path(s) *)
| parent (p : Path)                     (* p.parent *)
| joinpath (p : Path) (name : string).  (* p / name *)

(** Keyword arguments of [train_test_split]. *)
Record split_args : Type := {
  test_size : Q;
  random_state : option Z;
  stratify : option Series
}.

(** Constructor arguments of [RandomForestClassifier]. *)
Record forest_args : Type := {
  n_estimators : Z;
  forest_random_state : option Z
}.

(** What a run does to the outside, in order. *)
Inductive event : Type :=
| Print (line : string)
| ReadCsv (p : Path)
| Split (X : DataFrame) (y : Series) (a : split_args)
| Fit (a : forest_args) (X : DataFrame) (y : Series)
| Score (X : DataFrame) (y : Series)
| ImportJoblib
| Dump (p : Path).

Definition trace : Type := list event.

(** How a run ends. *)
Inductive outcome (A : Type) : Type :=
| Normal (a : A)          (* falls off the end *)
| Exited (code : Z)       (* sys.exit(code) *)
| Uncaught (e : exn).     (* traceback *)
Arguments Normal {A} a.
Arguments Exited {A} code.
Arguments Uncaught {A} e.

(** The exit status the interpreter reports. *)
Definition exit_code {A : Type} (o : outcome A) : Z :=
  match o with
  | Normal _ => 0
  | Exited code => code
  | Uncaught _ => 1
  end.

(** Computations of the script: they extend the trace and end in an
    outcome. *)
Definition M (A : Type) : Type := trace -> outcome A * trace.

Definition ret {A : Type} (a : A) : M A := fun t => (Normal a, t).

Definition bind {A B : Type} (m : M A) (k : A -> M B) : M B :=
  fun t =>
    match m t with
    | (Normal a, t') => k a t'
    | (Exited code, t') => (Exited code, t')
    | (Uncaught e, t') => (Uncaught e, t')
    end.

Notation "x <- m ;; k" := (bind m (fun x => k))
  (at level 61, m at next level, right associativity).
Notation "m ;; k" := (bind m (fun _ => k))
  (at level 61, right associativity).

(** [print(line)]. *)
Definition print (line : string) : M unit :=
  fun t => (Normal tt, (t ++ [Print line])%list).

(** [sys.exit(code)]. *)
Definition sys_exit {A : Type} (code : Z) : M A :=
  fun t => (Exited code, t).

(** A call into library code: logged, then it returns or raises. *)
Definition call {A : Type} (ev : event) (r : result A) : M A :=
  fun t =>
    match r with
    | Ok a => (Normal a, (t ++ [ev])%list)
    | Raise e => (Uncaught e, (t ++ [ev])%list)
    end.

(** An operation on a value already in hand, which may raise. *)
Definition lift {A : Type} (r : result A) : M A :=
  fun t =>
    match r with
    | Ok a => (Normal a, t)
    | Raise e => (Uncaught e, t)
    end.

(** [try: body  except ImportError: pass]. *)
Definition try_except_ImportError (body : M unit) : M unit :=
  fun t =>
    match body t with
    | (Uncaught e, t') =>
        if isinstance_ImportError e then (Normal tt, t') else (Uncaught e, t')
    | r => r
    end.

(** [if c: body]. *)
Definition when (c : bool) (body : M unit) : M unit :=
  if c then body else ret tt.

Definition FEATURE_COLUMNS : list string :=
  [ "totalCount";
    "failureCount";
    "failureRate";
    "countLast1Min";
    "avgAmount";
    "maxAmount" ].

Definition TARGET_COLUMN : string := "label".

Section Script.

(** The fitted estimator is opaque to the script. *)
Variable Model : Type.

(** Everything outside the script: the interpreter's formatting, the file
    system, and the installed libraries. *)
Record Host : Type := {
  (* pathlib; [path_exists] is the answer of exists() when it returns, see
     [path_exists_checked] for the call that may raise *)
  path_exists : Path -> bool;
  path_str : Path -> string;
  (* float formatting *)
  format_4f : Q -> string;       (* format(x, ".4f") *)
  repr_float64 : Q -> string;    (* repr of a numpy float64 *)
  (* numpy *)
  np_round4 : Q -> Q;            (* x.round(4), on one element *)
  (* pandas *)
  read_csv : Path -> result DataFrame;
  (* scikit-learn; the first argument is the process's unseeded random
     state, which differs from run to run *)
  train_test_split :
    Z -> DataFrame -> Series -> split_args ->
    result (DataFrame * DataFrame * Series * Series);
  fit : Z -> forest_args -> DataFrame -> Series -> result Model;
  score : Model -> DataFrame -> Series -> result Q;
  feature_importances_ : Model -> list Q;
  (* joblib *)
  import_joblib : result unit;
  joblib_dump : Model -> Path -> result unit
}.

Variable h : Host.

(** Lines 41-44: the loop over the required columns. *)
Fixpoint check_columns (cols : list string) (df : DataFrame) : M unit :=
  match cols with
  | [] => ret tt
  | col :: rest =>
      when (negb (has_column col df))
        (print ("Missing column: " ++ col ++ ". Expected columns: "
                  ++ str_list (columns df)) ;;
         sys_exit 1) ;;
      check_columns rest df
  end.

(** Lines 29-32. *)
Definition csv_path (argv : list string) : Path :=
  if (1 <? List.length argv)%nat
  then PathOf (nth 1 argv "")
  else PathOf "risk_training_data.csv".

Definition the_split_args (y : Series) : split_args :=
  {| test_size := 2 # 10; random_state := Some 42; stratify := Some y |}.

Definition the_forest_args : forest_args :=
  {| n_estimators := 100; forest_random_state := Some 42 |}.

(** Line 58, the printed text. *)
Definition importances_line (imps : list Q) : string :=
  "Feature importances: "
    ++ str_dict (repr_float64 h)
         (dict (combine FEATURE_COLUMNS (map (np_round4 h) imps))).

(** Line 61. *)
Definition out_path (file : string) : Path :=
  joinpath (parent (PathOf file)) "risk_model.joblib".

(** [main()], run with [sys.argv = argv], [__file__ = file] and unseeded
    random state [entropy]. *)
Definition main (argv : list string) (file : string) (entropy : Z) : M unit :=
  let csv_path := csv_path argv in
  when (negb (path_exists h csv_path))
    (print ("File not found: " ++ path_str h csv_path) ;;
     print "Generate it first: start the app, then curl the training-data endpoint." ;;
     print "Example: curl -s 'http://localhost:8080/api/v1/risk/demo/training-data?rows=500' -o risk_training_data.csv" ;;
     sys_exit 1) ;;
  df <- call (ReadCsv csv_path) (read_csv h csv_path) ;;
  check_columns (FEATURE_COLUMNS ++ [TARGET_COLUMN])%list df ;;
  X <- lift (select FEATURE_COLUMNS df) ;;
  y <- lift (getitem TARGET_COLUMN df) ;;
  parts <- call (Split X y (the_split_args y))
             (train_test_split h entropy X y (the_split_args y)) ;;
  let '(X_train, X_test, y_train, y_test) := parts in
  model <- call (Fit the_forest_args X_train y_train)
             (fit h entropy the_forest_args X_train y_train) ;;
  score <- call (Score X_test y_test) (score h model X_test y_test) ;;
  print ("Test accuracy: " ++ format_4f h score) ;;
  print (importances_line (feature_importances_ h model)) ;;
  let out_path := out_path file in
  try_except_ImportError
    (call ImportJoblib (import_joblib h) ;;
     call (Dump out_path) (joblib_dump h model out_path) ;;
     print ("Model saved to " ++ path_str h out_path)).

(** A whole run of the process, from an empty trace. *)
Definition run (argv : list string) (file : string) (entropy : Z)
  : outcome unit * trace :=
  main argv file entropy [].

End Script.

Arguments path_exists {Model} h p : rename.
Arguments path_str {Model} h p : rename.
Arguments format_4f {Model} h x : rename.
Arguments repr_float64 {Model} h x : rename.
Arguments np_round4 {Model} h x : rename.
Arguments read_csv {Model} h p : rename.
Arguments train_test_split {Model} h entropy X y a : rename.
Arguments fit {Model} h entropy a X y : rename.
Arguments score {Model} h m X y : rename.
Arguments feature_importances_ {Model} h m : rename.
Arguments import_joblib {Model} h : rename.
Arguments joblib_dump {Model} h m p : rename.
Arguments check_columns cols df : clear implicits.
Arguments csv_path argv : clear implicits.
Arguments the_split_args y : clear implicits.
Arguments out_path file : clear implicits.
Arguments importances_line {Model} h imps.
Arguments main {Model} h argv file entropy.
Arguments run {Model} h argv file entropy.

(** The seven columns the loop of lines 41-44 looks for, in its order. *)
Definition REQUIRED : list string := (FEATURE_COLUMNS ++ [TARGET_COLUMN])%list.

(** The diagnostic of line 43. *)
Definition missing_message (col : string) (df : DataFrame) : string :=
  "Missing column: " ++ col ++ ". Expected columns: " ++ str_list (columns df).

(** What a trace shows from outside. *)
Definition stdout (t : trace) : list string :=
  flat_map (fun ev => match ev with Print s => [s] | _ => [] end) t.

(** The files a run tried to write. *)
Definition artifacts (t : trace) : list Path :=
  flat_map (fun ev => match ev with Dump p => [p] | _ => [] end) t.


(** Events that split, fit or score. *)
Definition is_training (ev : event) : bool :=
  match ev with
  | Split _ _ _ | Fit _ _ _ | Score _ _ => true
  | _ => false
  end.

(** Rows of a column, and of a table, at the given positions. *)
Definition take_rows (idx : list nat) (s : Series) : Series :=
  map (fun i => nth i s NaN) idx.

Definition take_rows_df (idx : list nat) (X : DataFrame) : DataFrame :=
  map (fun nc => (fst nc, take_rows idx (snd nc))) X.

(** ** What the script relies on from its libraries

    These are the documented contracts of the calls the script makes; they
    are hypotheses of the theorems that need them, never assumed globally. *)

Section Laws.

Context {Model : Type} (h : Host Model).

(** An integer [random_state] makes the split and the fit reproducible:
    their results do not depend on the process's unseeded random state. *)
Definition seeded_reproducible : Prop :=
  (forall e1 e2 X y t s st,
      train_test_split h e1 X y
        {| test_size := t; random_state := Some s; stratify := st |}
      = train_test_split h e2 X y
        {| test_size := t; random_state := Some s; stratify := st |})
  /\ (forall e1 e2 n s X y,
      fit h e1 {| n_estimators := n; forest_random_state := Some s |} X y
      = fit h e2 {| n_estimators := n; forest_random_state := Some s |} X y).

(** A stratified split that returns has cut the rows in two non-empty parts:
    the test part has [ceil(test_size * n)] rows, and in it every class has
    its share of the rows up to one row. *)
Definition stratified_split_law : Prop :=
  forall e X y a X_train X_test y_train y_test,
    train_test_split h e X y a = Ok (X_train, X_test, y_train, y_test) ->
    stratify a = Some y ->
    exists train_idx test_idx,
      Permutation (train_idx ++ test_idx) (seq 0 (List.length y))
      /\ X_train = take_rows_df train_idx X
      /\ X_test = take_rows_df test_idx X
      /\ y_train = take_rows train_idx y
      /\ y_test = take_rows test_idx y
      /\ train_idx <> [] /\ test_idx <> []
      /\ rows y_test = Qceiling (test_size a * inject_Z (rows y))
      /\ forall c,
          Z.abs (rows y * class_count c y_test - rows y_test * class_count c y)
          < rows y.

(** A split keeps the columns of the table it is given. *)
Definition split_keeps_columns : Prop :=
  forall e X y a X_train X_test y_train y_test,
    train_test_split h e X y a = Ok (X_train, X_test, y_train, y_test) ->
    columns X_train = columns X /\ columns X_test = columns X.

(** A fitted forest has one importance per feature column, each between 0
    and 1.  They sum to 1 up to the rounding of double arithmetic (within
    [eps]), unless no tree of the forest has a split, in which case they are
    all zero. *)
Definition importances_law (eps : Q) : Prop :=
  forall e a X y m,
    fit h e a X y = Ok m ->
    List.length (feature_importances_ h m) = List.length (columns X)
    /\ Forall (fun i => (0 <= i <= 1)%Q) (feature_importances_ h m)
    /\ ((Qabs (Qsum (feature_importances_ h m) - 1) <= eps)%Q
        \/ Forall (fun i => (i == 0)%Q) (feature_importances_ h m)).

(** numpy's [round(4)] on a value between 0 and 1: the result is, within
    [delta], a whole number [k] of ten-thousandths, and [k] is, within
    [delta], the integer nearest to 10000 times the value ([delta] covers the
    rounding of the double multiplication and division; for exact
    arithmetic it is 0).  Zero stays zero. *)
Definition round4_law (delta : Q) : Prop :=
  (forall x, (0 <= x <= 1)%Q ->
     exists k : Z,
       (Qabs (np_round4 h x - (k # 10000)) <= delta)%Q
       /\ (Qabs (inject_Z k - x * inject_Z 10000) <= (1 # 2) + delta)%Q)
  /\ (forall x, (x == 0)%Q -> (np_round4 h x == 0)%Q).

(** The same host, reading a given table. *)
Definition with_table (df : DataFrame) : Host Model :=
  {| path_exists := path_exists h;
     path_str := path_str h;
     format_4f := format_4f h;
     repr_float64 := repr_float64 h;
     np_round4 := np_round4 h;
     read_csv := fun _ => Ok df;
     train_test_split := train_test_split h;
     fit := fit h;
     score := score h;
     feature_importances_ := feature_importances_ h;
     import_joblib := import_joblib h;
     joblib_dump := joblib_dump h |}.

(** The same host, with another [joblib.dump]. *)
Definition with_joblib_dump (dump : Model -> Path -> result unit)
  : Host Model :=
  {| path_exists := path_exists h;
     path_str := path_str h;
     format_4f := format_4f h;
     repr_float64 := repr_float64 h;
     np_round4 := np_round4 h;
     read_csv := read_csv h;
     train_test_split := train_test_split h;
     fit := fit h;
     score := score h;
     feature_importances_ := feature_importances_ h;
     import_joblib := import_joblib h;
     joblib_dump := dump |}.

(** The run gets as far as the report: every step before persistence
    returned. *)
Definition Trained (argv : list string) (entropy : Z)
    (df X : DataFrame) (y : Series)
    (X_train X_test : DataFrame) (y_train y_test : Series)
    (model : Model) (acc : Q) : Prop :=
  path_exists h (csv_path argv) = true
  /\ read_csv h (csv_path argv) = Ok df
  /\ forallb (fun c => has_column c df) REQUIRED = true
  /\ select FEATURE_COLUMNS df = Ok X
  /\ getitem TARGET_COLUMN df = Ok y
  /\ train_test_split h entropy X y (the_split_args y)
     = Ok (X_train, X_test, y_train, y_test)
  /\ fit h entropy the_forest_args X_train y_train = Ok model
  /\ score h model X_test y_test = Ok acc.

(** The trace of such a run up to and including the report. *)
Definition report_trace (argv : list string)
    (X : DataFrame) (y : Series)
    (X_train X_test : DataFrame) (y_train y_test : Series)
    (model : Model) (acc : Q) : trace :=
  [ ReadCsv (csv_path argv);
    Split X y (the_split_args y);
    Fit the_forest_args X_train y_train;
    Score X_test y_test;
    Print ("Test accuracy: " ++ format_4f h acc);
    Print (importances_line h (feature_importances_ h model)) ].

(** Lines 62-67 on their own. *)
Definition persist (model : Model) (file : string) : M unit :=
  try_except_ImportError
    (call ImportJoblib (import_joblib h) ;;
     call (Dump (out_path file)) (joblib_dump h model (out_path file)) ;;
     print ("Model saved to " ++ path_str h (out_path file))).

(** Persistence ends without an exception being left: joblib is there and
    the dump returns, or an [ImportError] was raised inside the [try]. *)
Definition persist_quiet (model : Model) (file : string) : Prop :=
  match import_joblib h with
  | Raise e => isinstance_ImportError e = true
  | Ok _ =>
      match joblib_dump h model (out_path file) with
      | Raise e => isinstance_ImportError e = true
      | Ok _ => True
      end
  end.

End Laws.

(** ** A small host to run the script on

    A self-contained stand-in for the libraries, used to run the script on
    concrete inputs.  It keeps the behaviour of the real ones that the runs
    below depend on:
    - the file system is a list of parsed files by path;
    - the splitter allots [ceil(test_size * n)] rows to the test part, shares
      them among the classes by largest remainder, and raises [ValueError]
      when a part would be empty, as [train_test_split] does;
    - the "forest" predicts the majority label; when its training labels are
      all equal no tree can split, and its importances are all zero, as
      [feature_importances_] is for a forest of single-node trees;
    - values are rounded exactly ([round4]), with no double rounding error;
    - [import joblib] raises [ModuleNotFoundError] when joblib is not
      installed, and the dump raises [OSError] when it cannot write. *)

Module Demo.

(** A fitted "forest": it predicts the majority label, and remembers whether
    its training labels allowed any split at all (a node whose labels are all
    equal is never split). *)
Record model : Type := {
  majority : cell;
  n_features : nat;
  has_split : bool;
  seed : Z
}.

Fixpoint drop_last_component (rev_chars : list ascii) : option (list ascii) :=
  match rev_chars with
  | [] => None
  | c :: rest =>
      if Ascii.eqb c "/"%char then Some rest else drop_last_component rest
  end.

Definition dirname (s : string) : string :=
  match drop_last_component (rev (list_ascii_of_string s)) with
  | None => "."
  | Some [] => "/"
  | Some r => string_of_list_ascii (rev r)
  end.

Fixpoint str (p : Path) : string :=
  match p with
  | PathOf s => s
  | parent p' => dirname (str p')
  | joinpath p' name => str p' ++ "/" ++ name
  end.

Definition digits (n : Z) : string :=
  NilEmpty.string_of_uint (N.to_uint (Z.to_N n)).

Definition pad4 (s : string) : string :=
  match String.length s with
  | 0%nat => "0000"
  | 1%nat => "000" ++ s
  | 2%nat => "00" ++ s
  | 3%nat => "0" ++ s
  | _ => s
  end.

(** Four decimals, rounded. *)
Definition fmt4 (q : Q) : string :=
  let n := rint (q * inject_Z 10000) in
  (if (n <? 0)%Z then "-" else "")
    ++ digits (Z.abs n / 10000) ++ "." ++ pad4 (digits (Z.abs n mod 10000)).

Fixpoint strip_zeros (rev_chars : list ascii) : list ascii :=
  match rev_chars with
  | z :: ((d :: _) as rest) =>
      if Ascii.eqb z "0"%char && negb (Ascii.eqb d "."%char)
      then strip_zeros rest else rev_chars
  | _ => rev_chars
  end.

(** The shortest decimal text of a value with at most four decimals. *)
Definition shortest (q : Q) : string :=
  string_of_list_ascii (rev (strip_zeros (rev (list_ascii_of_string (fmt4 q))))).

Fixpoint lookup {A : Type} (k : string) (l : list (string * A)) : option A :=
  match l with
  | [] => None
  | (k', v) :: l' => if String.eqb k k' then Some v else lookup k l'
  end.

(** Which occurrence of its class row [i] is, counting from 0. *)
Definition occurrence (y : Series) (i : nat) : nat :=
  count_occ cell_eq_dec (firstn i y) (nth i y NaN).

(** The classes listed before [c]. *)
Fixpoint before (c : cell) (l : list cell) : list cell :=
  match l with
  | [] => []
  | x :: l' => if cell_eq_dec x c then [] else x :: before c l'
  end.

(** How many rows of class [c] go to a test part of [n_test] rows: the whole
    part of the class's share, and one more for the classes with the largest
    remainders until the part is full. *)
Definition quota (n_test : Z) (y : Series) (c : cell) : Z :=
  let n := rows y in
  let classes := nodup cell_eq_dec y in
  let base := fun c' => (n_test * class_count c' y / n)%Z in
  let rest := fun c' => ((n_test * class_count c' y) mod n)%Z in
  let extra := (n_test - fold_right Z.add 0 (map base classes))%Z in
  let rank :=
    (List.length (filter (fun c' => (rest c <? rest c')%Z) classes)
     + List.length (filter (fun c' => (rest c =? rest c')%Z)
                      (before c classes)))%nat in
  (base c + (if (Z.of_nat rank <? extra)%Z then 1 else 0))%Z.

(** Row [i] goes to the test part when it is among the first rows of its
    class, up to the class's quota.  [flip] counts the rows of a class from
    the other end. *)
Definition in_test (t : Q) (y : Series) (flip : bool) (i : nat) : bool :=
  let c := nth i y NaN in
  let j := occurrence y i in
  let j := if flip
           then (count_occ cell_eq_dec y c - 1 - j)%nat
           else j in
  (Z.of_nat j <? quota (Qceiling (t * inject_Z (rows y))) y c)%Z.

Definition is_nil {A : Type} (l : list A) : bool :=
  match l with [] => true | _ => false end.

(** The splitter's own check of a candidate split of labels [y]. *)
Definition split_ok (t : Q) (y : Series) (train_idx test_idx : list nat) : bool :=
  negb (is_nil train_idx) && negb (is_nil test_idx)
  && (rows (take_rows test_idx y) =? Qceiling (t * inject_Z (rows y)))%Z
  && forallb
       (fun c =>
          (Z.abs (rows y * class_count c (take_rows test_idx y)
                  - rows (take_rows test_idx y) * class_count c y)
           <? rows y)%Z)
       (nodup cell_eq_dec y).

Definition split (entropy : Z) (X : DataFrame) (y : Series) (a : split_args)
  : result (DataFrame * DataFrame * Series * Series) :=
  let flip := match random_state a with
              | Some _ => false
              | None => Z.odd entropy
              end in
  let labels := match stratify a with
                | Some s => s
                | None => repeat NaN (List.length y)
                end in
  if negb (Nat.eqb (List.length labels) (List.length y)) then Raise ValueError
  else
    let idx := seq 0 (List.length y) in
    let test_idx := filter (in_test (test_size a) labels flip) idx in
    let train_idx :=
      filter (fun i => negb (in_test (test_size a) labels flip i)) idx in
    if split_ok (test_size a) labels train_idx test_idx
    then Ok (take_rows_df train_idx X, take_rows_df test_idx X,
             take_rows train_idx y, take_rows test_idx y)
    else Raise ValueError.

(** The most frequent label. *)
Definition mode (y : Series) : cell :=
  fold_right
    (fun c best =>
       if (count_occ cell_eq_dec y best <=? count_occ cell_eq_dec y c)%nat
       then c else best)
    (hd NaN y) (nodup cell_eq_dec y).

Definition fit_majority (entropy : Z) (a : forest_args) (X : DataFrame)
    (y : Series) : result model :=
  match X, y with
  | [], _ => Raise ValueError
  | _, [] => Raise ValueError
  | _, _ =>
      Ok {| majority := mode y;
            n_features := List.length X;
            has_split :=
              negb (forallb (fun c => if cell_eq_dec c (hd NaN y)
                                      then true else false) y);
            seed := match forest_random_state a with
                    | Some s => s
                    | None => entropy
                    end |}
  end.

Definition accuracy (m : model) (X : DataFrame) (y : Series) : result Q :=
  match y with
  | [] => Raise ValueError
  | _ => Ok (Qmake (class_count (majority m) y) (Pos.of_nat (List.length y)))
  end.

(** Equal shares when the forest has a split; all zeros when it has none. *)
Definition importances (m : model) : list Q :=
  if has_split m
  then repeat (Qmake 1 (Pos.of_nat (n_features m))) (n_features m)
  else repeat (0 # 1)%Q (n_features m).

(** The host: [files] are the parsed files by path, [joblib_installed] says
    whether [import joblib] works, [disk_ok] whether the dump can write. *)
Definition host (files : list (string * DataFrame))
    (joblib_installed disk_ok : bool) : Host model :=
  {| path_exists := fun p => existsb (String.eqb (str p)) (map fst files);
     path_str := str;
     format_4f := fmt4;
     repr_float64 := shortest;
     np_round4 := round4;
     read_csv := fun p =>
       match lookup (str p) files with
       | Some df => Ok df
       | None => Raise OSError
       end;
     train_test_split := split;
     fit := fit_majority;
     score := accuracy;
     feature_importances_ := importances;
     import_joblib :=
       if joblib_installed then Ok tt else Raise ModuleNotFoundError;
     joblib_dump := fun _ _ => if disk_ok then Ok tt else Raise OSError |}.

Definition ints (l : list Z) : Series := map Int l.

(** Ten rows, five of each label. *)
Definition sample : DataFrame :=
  [ ("totalCount",    ints [12; 40; 7; 55; 9; 31; 14; 60; 11; 48]);
    ("failureCount",  ints [0; 9; 1; 20; 0; 8; 1; 25; 0; 12]);
    ("failureRate",   map Float [0; 9 # 40; 1 # 7; 4 # 11; 0; 8 # 31; 1 # 14; 5 # 12; 0; 1 # 4]%Q);
    ("countLast1Min", ints [1; 6; 0; 9; 1; 5; 2; 8; 1; 7]);
    ("avgAmount",     ints [20; 310; 15; 500; 32; 280; 25; 640; 18; 410]);
    ("maxAmount",     ints [45; 900; 30; 1500; 60; 820; 50; 2000; 40; 990]);
    ("label",         ints [0; 1; 0; 1; 0; 1; 0; 1; 0; 1]) ].

(** The same data with the header permuted and two more columns. *)
Definition sample_wide : DataFrame :=
  [ ("label",         ints [0; 1; 0; 1; 0; 1; 0; 1; 0; 1]);
    ("entityId",      map Str ["a"; "b"; "c"; "d"; "e"; "f"; "g"; "h"; "i"; "j"]);
    ("maxAmount",     ints [45; 900; 30; 1500; 60; 820; 50; 2000; 40; 990]);
    ("avgAmount",     ints [20; 310; 15; 500; 32; 280; 25; 640; 18; 410]);
    ("countLast1Min", ints [1; 6; 0; 9; 1; 5; 2; 8; 1; 7]);
    ("failureRate",   map Float [0; 9 # 40; 1 # 7; 4 # 11; 0; 8 # 31; 1 # 14; 5 # 12; 0; 1 # 4]%Q);
    ("failureCount",  ints [0; 9; 1; 20; 0; 8; 1; 25; 0; 12]);
    ("totalCount",    ints [12; 40; 7; 55; 9; 31; 14; 60; 11; 48]);
    ("region",        map Str ["n"; "s"; "n"; "e"; "w"; "s"; "n"; "e"; "w"; "s"]) ].

(** Ten rows that all carry the label 0. *)
Definition one_class : DataFrame :=
  [ ("totalCount",    ints [12; 40; 7; 55; 9; 31; 14; 60; 11; 48]);
    ("failureCount",  ints [0; 0; 0; 0; 0; 0; 0; 0; 0; 0]);
    ("failureRate",   ints [0; 0; 0; 0; 0; 0; 0; 0; 0; 0]);
    ("countLast1Min", ints [1; 6; 0; 9; 1; 5; 2; 8; 1; 7]);
    ("avgAmount",     ints [20; 310; 15; 500; 32; 280; 25; 640; 18; 410]);
    ("maxAmount",     ints [45; 900; 30; 1500; 60; 820; 50; 2000; 40; 990]);
    ("label",         ints [0; 0; 0; 0; 0; 0; 0; 0; 0; 0]) ].

(** Eleven rows, six with label 0 and five with label 1. *)
Definition uneven : DataFrame :=
  [ ("totalCount",    ints [12; 40; 7; 55; 9; 31; 14; 60; 11; 48; 5]);
    ("failureCount",  ints [0; 9; 1; 20; 0; 8; 1; 25; 0; 12; 0]);
    ("failureRate",   ints [0; 0; 0; 0; 0; 0; 0; 0; 0; 0; 0]);
    ("countLast1Min", ints [1; 6; 0; 9; 1; 5; 2; 8; 1; 7; 0]);
    ("avgAmount",     ints [20; 310; 15; 500; 32; 280; 25; 640; 18; 410; 12]);
    ("maxAmount",     ints [45; 900; 30; 1500; 60; 820; 50; 2000; 40; 990; 20]);
    ("label",         ints [0; 1; 0; 1; 0; 1; 0; 1; 0; 1; 0]) ].

(** A file with the full header and no data rows. *)
Definition header_only : DataFrame :=
  map (fun c => (c, [])) REQUIRED.

(** A file without [failureRate] and without [label]. *)
Definition two_missing : DataFrame :=
  [ ("totalCount",    ints [12; 40]);
    ("failureCount",  ints [0; 9]);
    ("countLast1Min", ints [1; 6]);
    ("avgAmount",     ints [20; 310]);
    ("maxAmount",     ints [45; 900]) ].

Definition files : list (string * DataFrame) :=
  [ ("risk_training_data.csv", sample);
    ("data/wide.csv", sample_wide);
    ("data/empty.csv", header_only);
    ("data/quiet.csv", one_class);
    ("data/uneven.csv", uneven);
    ("data/short.csv", two_missing) ].

Definition script : string := "scripts/train_risk_model.py".

(** What a run on [sample] computes, step by step. *)
Definition sample_X : DataFrame :=
  Eval vm_compute in
  match select FEATURE_COLUMNS sample with Ok X => X | Raise _ => [] end.

Definition sample_y : Series :=
  Eval vm_compute in
  match getitem TARGET_COLUMN sample with Ok y => y | Raise _ => [] end.

Definition sample_parts : DataFrame * DataFrame * Series * Series :=
  Eval vm_compute in
  match split 0 sample_X sample_y (the_split_args sample_y) with
  | Ok parts => parts
  | Raise _ => ([], [], [], [])
  end.

Definition sample_X_train : DataFrame := fst (fst (fst sample_parts)).
Definition sample_X_test : DataFrame := snd (fst (fst sample_parts)).
Definition sample_y_train : Series := snd (fst sample_parts).
Definition sample_y_test : Series := snd sample_parts.

Definition sample_model : model :=
  Eval vm_compute in
  match fit_majority 0 the_forest_args sample_X_train sample_y_train with
  | Ok m => m
  | Raise _ => {| majority := NaN; n_features := 0; has_split := false;
                  seed := 0 |}
  end.

Definition sample_acc : Q :=
  Eval vm_compute in
  match accuracy sample_model sample_X_test sample_y_test with
  | Ok a => a
  | Raise _ => 0%Q
  end.

End Demo.

(** ** The claims as the specification words them *)

(** The input is unusable: the file is not there, or it parses to a table
    that lacks one of the seven columns. *)
Definition input_error {Model : Type} (h : Host Model) (argv : list string)
  : Prop :=
  path_exists h (csv_path argv) = false
  \/ (path_exists h (csv_path argv) = true
      /\ exists df, read_csv h (csv_path argv) = Ok df
                    /\ exists c, In c REQUIRED /\ has_column c df = false).

(** "Exit code 1 exactly on a missing file or a missing column, exit code 0
    in every other case." *)
Definition exits_1_exactly_on_input_error {Model : Type} (h : Host Model)
    (argv : list string) (file : string) (entropy : Z) : Prop :=
  (exit_code (fst (run h argv file entropy)) = 1 <-> input_error h argv)
  /\ (~ input_error h argv -> exit_code (fst (run h argv file entropy)) = 0).

(** "80% train and 20% test." *)
Definition exact_80_20 (y y_train y_test : Series) : Prop :=
  5 * rows y_test = rows y /\ 5 * rows y_train = 4 * rows y.

(** "The partition keeps the same label ratio as the source": every label
    has in [part] the share of the rows it has in [y]. *)
Definition keeps_ratio (y part : Series) : Prop :=
  forall c, rows y * class_count c part = rows part * class_count c y.

(** ** The ways a run can end

    [main] is a straight line with six calls into library code; a run ends
    at the first step that exits or raises.  [Ends] lists the nine ways, each
    with the outcome and the whole trace. *)

(** The library calls of a run, by kind. *)
Inductive call_kind : Type :=
| ReadCsvCall
| SplitCall
| FitCall
| ScoreCall
| ImportCall
| DumpCall.

Definition kind_of (ev : event) : list call_kind :=
  match ev with
  | Print _ => []
  | ReadCsv _ => [ReadCsvCall]
  | Split _ _ _ => [SplitCall]
  | Fit _ _ _ => [FitCall]
  | Score _ _ => [ScoreCall]
  | ImportJoblib => [ImportCall]
  | Dump _ => [DumpCall]
  end.

Definition calls (t : trace) : list call_kind := flat_map kind_of t.

(** The order in which [main] reaches its calls. *)
Definition PIPELINE : list call_kind :=
  [ReadCsvCall; SplitCall; FitCall; ScoreCall; ImportCall; DumpCall].

(** The features a training event carries. *)
Definition features_of (ev : event) : list DataFrame :=
  match ev with
  | Split X _ _ | Fit _ X _ | Score X _ => [X]
  | _ => []
  end.

(** The three lines of lines 35-37. *)
Definition file_not_found_lines (shown : string) : list string :=
  [ "File not found: " ++ shown;
    "Generate it first: start the app, then curl the training-data endpoint.";
    "Example: curl -s 'http://localhost:8080/api/v1/risk/demo/training-data?rows=500' -o risk_training_data.csv" ].

Section Endings.

Context {Model : Type} (h : Host Model).

(** The file is there, parses, and has the seven columns: [X] and [y] are
    what lines 46-47 take from it. *)
Definition Loaded (argv : list string) (df X : DataFrame) (y : Series)
  : Prop :=
  path_exists h (csv_path argv) = true
  /\ read_csv h (csv_path argv) = Ok df
  /\ forallb (fun c => has_column c df) REQUIRED = true
  /\ select FEATURE_COLUMNS df = Ok X
  /\ getitem TARGET_COLUMN df = Ok y.

(** What [except ImportError] makes of an exception raised in the [try]. *)
Definition after_except (e : exn) : outcome unit :=
  if isinstance_ImportError e then Normal tt else Uncaught e.

Inductive Ends (argv : list string) (file : string) (entropy : Z)
  : outcome unit -> trace -> Prop :=
| ends_no_file :
    path_exists h (csv_path argv) = false ->
    Ends argv file entropy (Exited 1)
      (map Print (file_not_found_lines (path_str h (csv_path argv))))
| ends_parse_raises e :
    path_exists h (csv_path argv) = true ->
    read_csv h (csv_path argv) = Raise e ->
    Ends argv file entropy (Uncaught e) [ReadCsv (csv_path argv)]
| ends_missing_column df c :
    path_exists h (csv_path argv) = true ->
    read_csv h (csv_path argv) = Ok df ->
    find (fun c => negb (has_column c df)) REQUIRED = Some c ->
    Ends argv file entropy (Exited 1)
      [ReadCsv (csv_path argv); Print (missing_message c df)]
| ends_split_raises df X y e :
    Loaded argv df X y ->
    train_test_split h entropy X y (the_split_args y) = Raise e ->
    Ends argv file entropy (Uncaught e)
      [ReadCsv (csv_path argv); Split X y (the_split_args y)]
| ends_fit_raises df X y X_train X_test y_train y_test e :
    Loaded argv df X y ->
    train_test_split h entropy X y (the_split_args y)
    = Ok (X_train, X_test, y_train, y_test) ->
    fit h entropy the_forest_args X_train y_train = Raise e ->
    Ends argv file entropy (Uncaught e)
      [ReadCsv (csv_path argv); Split X y (the_split_args y);
       Fit the_forest_args X_train y_train]
| ends_score_raises df X y X_train X_test y_train y_test model e :
    Loaded argv df X y ->
    train_test_split h entropy X y (the_split_args y)
    = Ok (X_train, X_test, y_train, y_test) ->
    fit h entropy the_forest_args X_train y_train = Ok model ->
    score h model X_test y_test = Raise e ->
    Ends argv file entropy (Uncaught e)
      [ReadCsv (csv_path argv); Split X y (the_split_args y);
       Fit the_forest_args X_train y_train; Score X_test y_test]
| ends_import_raises df X y X_train X_test y_train y_test model acc e :
    Trained h argv entropy df X y X_train X_test y_train y_test model acc ->
    import_joblib h = Raise e ->
    Ends argv file entropy (after_except e)
      (report_trace h argv X y X_train X_test y_train y_test model acc
         ++ [ImportJoblib])%list
| ends_dump_raises df X y X_train X_test y_train y_test model acc u e :
    Trained h argv entropy df X y X_train X_test y_train y_test model acc ->
    import_joblib h = Ok u ->
    joblib_dump h model (out_path file) = Raise e ->
    Ends argv file entropy (after_except e)
      (report_trace h argv X y X_train X_test y_train y_test model acc
         ++ [ImportJoblib; Dump (out_path file)])%list
| ends_saved df X y X_train X_test y_train y_test model acc u u' :
    Trained h argv entropy df X y X_train X_test y_train y_test model acc ->
    import_joblib h = Ok u ->
    joblib_dump h model (out_path file) = Ok u' ->
    Ends argv file entropy (Normal tt)
      (report_trace h argv X y X_train X_test y_train y_test model acc
         ++ [ImportJoblib; Dump (out_path file);
             Print ("Model saved to " ++ path_str h (out_path file))])%list.

End Endings.

(** ** The existence check as a call

    [Path.exists()] answers [False] for a file that is not there, but it lets
    through an [OSError] that does not mean "no such file": a name that is too
    long, a directory that may not be searched.  [path_exists] of the host is
    the answer of the call when it returns; [stat_error p] is the exception
    it raises on [p], if any.  Line 34 is outside every [try], so that
    exception ends the run before anything is printed or called. *)
Definition path_exists_checked {Model : Type} (h : Host Model)
    (stat_error : Path -> option exn) (p : Path) : result bool :=
  match stat_error p with
  | Some e => Raise e
  | None => Ok (path_exists h p)
  end.

Definition run_checked {Model : Type} (h : Host Model)
    (stat_error : Path -> option exn)
    (argv : list string) (file : string) (entropy : Z)
  : outcome unit * trace :=
  match path_exists_checked h stat_error (csv_path argv) with
  | Raise e => (Uncaught e, [])
  | Ok _ => run h argv file entropy
  end.

(** Every label has in [part] the share of the rows it has in [y], up to
    one row: the difference of the two ratios is less than one row of
    [part]. *)
Definition fair_share (y part : Series) : Prop :=
  forall c,
    Z.abs (rows y * class_count c part - rows part * class_count c y)
    < rows y.

(** * Proofs *)

(** ** Running the script, step by step *)

Ltac step :=
  unfold bind, when, ret, print, sys_exit, call, lift; cbn [negb fst snd].

Lemma find_missing_none (cols : list string) (df : DataFrame) :
  forallb (fun c => has_column c df) cols = true ->
  find (fun c => negb (has_column c df)) cols = None.
Proof.
  induction cols as [|c cols IH]; cbn; [reflexivity|].
  intros H. apply andb_true_iff in H as [Hc Hcols].
  rewrite Hc. cbn. auto.
Qed.

Lemma find_missing_some (cols : list string) (df : DataFrame) (c : string) :
  In c cols -> has_column c df = false ->
  exists c', find (fun c => negb (has_column c df)) cols = Some c'
             /\ In c' cols /\ has_column c' df = false.
Proof.
  induction cols as [|d cols IH]; cbn; [contradiction|].
  intros Hin Hc. destruct (has_column d df) eqn:Hd; cbn.
  - destruct Hin as [->|Hin]; [congruence|].
    destruct (IH Hin Hc) as (c' & Hf & Hin' & Hc'). eauto.
  - exists d. auto.
Qed.

(** The loop of lines 41-44 stops at the first required column that the
    table lacks, prints one line, and exits with status 1; when none is
    missing it prints nothing. *)
Lemma check_columns_find (cols : list string) (df : DataFrame) (t : trace) :
  check_columns cols df t =
  match find (fun c => negb (has_column c df)) cols with
  | Some c => (Exited 1, (t ++ [Print (missing_message c df)])%list)
  | None => (Normal tt, t)
  end.
Proof.
  induction cols as [|c cols IH]; cbn [check_columns find]; [reflexivity|].
  destruct (has_column c df) eqn:Hc; step; cbn.
  - apply IH.
  - reflexivity.
Qed.

Lemma getitem_present (col : string) (df : DataFrame) :
  has_column col df = true -> exists s, getitem col df = Ok s.
Proof.
  unfold has_column, columns.
  induction df as [|[name s] df IH]; cbn; [discriminate|].
  destruct (String.eqb col name); cbn; eauto.
Qed.

Lemma select_present (cols : list string) (df : DataFrame) :
  forallb (fun c => has_column c df) cols = true ->
  exists X, select cols df = Ok X /\ columns X = cols.
Proof.
  induction cols as [|c cols IH]; cbn; [eauto|].
  intros H. apply andb_true_iff in H as [Hc Hcols].
  destruct (getitem_present _ _ Hc) as [s ->].
  destruct (IH Hcols) as (X & -> & HX).
  eexists; split; [reflexivity|]. unfold columns in *. cbn. now rewrite HX.
Qed.

Lemma required_split (df : DataFrame) :
  forallb (fun c => has_column c df) REQUIRED = true ->
  forallb (fun c => has_column c df) FEATURE_COLUMNS = true
  /\ has_column TARGET_COLUMN df = true.
Proof.
  unfold REQUIRED. rewrite forallb_app. cbn [forallb].
  rewrite andb_true_r. intros H. now apply andb_true_iff in H.
Qed.

Section Runs.

Context {Model : Type} (h : Host Model).

#[local] Arguments REQUIRED : simpl never.
#[local] Arguments FEATURE_COLUMNS : simpl never.
#[local] Arguments TARGET_COLUMN : simpl never.

(** Line 34 onwards when the file is not there. *)
Lemma main_missing_file (argv : list string) (file : string) (entropy : Z) :
  path_exists h (csv_path argv) = false ->
  run h argv file entropy =
  (Exited 1,
   [ Print ("File not found: " ++ path_str h (csv_path argv));
     Print "Generate it first: start the app, then curl the training-data endpoint.";
     Print "Example: curl -s 'http://localhost:8080/api/v1/risk/demo/training-data?rows=500' -o risk_training_data.csv" ]).
Proof.
  intros He. unfold run, main. step. rewrite He. reflexivity.
Qed.

(** The file is there but pandas raises. *)
Lemma main_parse_error (argv : list string) (file : string) (entropy : Z)
    (e : exn) :
  path_exists h (csv_path argv) = true ->
  read_csv h (csv_path argv) = Raise e ->
  run h argv file entropy = (Uncaught e, [ReadCsv (csv_path argv)]).
Proof.
  intros He Hr. unfold run, main. step. rewrite He, Hr. reflexivity.
Qed.

(** The file parses; the rest of the run is decided by the column check. *)
Lemma main_missing_column (argv : list string) (file : string) (entropy : Z)
    (df : DataFrame) (c : string) :
  path_exists h (csv_path argv) = true ->
  read_csv h (csv_path argv) = Ok df ->
  find (fun c => negb (has_column c df)) REQUIRED = Some c ->
  run h argv file entropy =
  (Exited 1, [ReadCsv (csv_path argv); Print (missing_message c df)]).
Proof.
  intros He Hr Hf. unfold run, main. step. rewrite He, Hr.
  fold REQUIRED. cbn. rewrite check_columns_find, Hf. reflexivity.
Qed.

(** Everything up to the report returned: what is left is persistence,
    started from the trace of the report. *)
Lemma main_trained (argv : list string) (file : string) (entropy : Z)
    df X y X_train X_test y_train y_test model acc :
  Trained h argv entropy df X y X_train X_test y_train y_test model acc ->
  run h argv file entropy =
  persist h model file
    (report_trace h argv X y X_train X_test y_train y_test model acc).
Proof.
  intros (He & Hr & Hc & HX & Hy & Hs & Hf & Ha).
  unfold run, main. step. rewrite He, Hr.
  fold REQUIRED. cbn. rewrite check_columns_find, (find_missing_none _ _ Hc).
  rewrite HX, Hy. cbn. rewrite Hs. cbn. rewrite Hf. cbn. rewrite Ha. cbn.
  reflexivity.
Qed.

End Runs.

Lemma find_missing_forallb (cols : list string) (df : DataFrame) :
  find (fun c => negb (has_column c df)) cols = None ->
  forallb (fun c => has_column c df) cols = true.
Proof.
  induction cols as [|c cols IH]; cbn; [reflexivity|].
  destruct (has_column c df); cbn; [assumption|discriminate].
Qed.

Lemma find_missing_in (cols : list string) (df : DataFrame) (c : string) :
  find (fun c => negb (has_column c df)) cols = Some c ->
  In c cols /\ has_column c df = false.
Proof.
  intros H. apply find_some in H as [Hin Hc].
  split; [assumption|]. now apply negb_true_iff in Hc.
Qed.

Section Persistence.

Context {Model : Type} (h : Host Model).

#[local] Arguments REQUIRED : simpl never.
#[local] Arguments FEATURE_COLUMNS : simpl never.
#[local] Arguments TARGET_COLUMN : simpl never.

(** The [try] block of lines 62-67, by cases on what joblib does. *)
Lemma persist_cases (model : Model) (file : string) (t : trace) :
  persist h model file t =
  match import_joblib h with
  | Raise e =>
      (if isinstance_ImportError e then Normal tt else Uncaught e,
       (t ++ [ImportJoblib])%list)
  | Ok _ =>
      match joblib_dump h model (out_path file) with
      | Raise e =>
          (if isinstance_ImportError e then Normal tt else Uncaught e,
           (t ++ [ImportJoblib; Dump (out_path file)])%list)
      | Ok _ =>
          (Normal tt,
           (t ++ [ImportJoblib; Dump (out_path file);
                  Print ("Model saved to " ++ path_str h (out_path file))])%list)
      end
  end.
Proof.
  unfold persist, try_except_ImportError. step.
  destruct (import_joblib h) as [u|e].
  - destruct (joblib_dump h model (out_path file)) as [u'|e'].
    + now rewrite <- !app_assoc.
    + rewrite <- !app_assoc. now destruct (isinstance_ImportError e').
  - now destruct (isinstance_ImportError e).
Qed.

(** Persistence never exits the process on its own: it returns or leaves an
    exception. *)
Lemma persist_exit_code (model : Model) (file : string) (t : trace) :
  exit_code (fst (persist h model file t)) = 0
  <-> persist_quiet h model file.
Proof.
  rewrite persist_cases. unfold persist_quiet.
  destruct (import_joblib h) as [u|e].
  - destruct (joblib_dump h model (out_path file)) as [u'|e']; cbn.
    + tauto.
    + destruct (isinstance_ImportError e'); cbn; split; congruence.
  - destruct (isinstance_ImportError e); cbn; split; congruence.
Qed.

(** A run ends in exactly one of three ways. *)
Lemma run_cases (argv : list string) (file : string) (entropy : Z) :
  (input_error h argv /\ fst (run h argv file entropy) = Exited 1)
  \/ (~ input_error h argv
      /\ exists e, fst (run h argv file entropy) = Uncaught e)
  \/ (~ input_error h argv
      /\ fst (run h argv file entropy) = Normal tt
      /\ exists df X y X_train X_test y_train y_test model acc,
          Trained h argv entropy df X y X_train X_test y_train y_test model acc
          /\ persist_quiet h model file).
Proof.
  destruct (path_exists h (csv_path argv)) eqn:He.
  2:{ left. split; [now left|]. now rewrite main_missing_file. }
  destruct (read_csv h (csv_path argv)) as [df|e] eqn:Hr.
  2:{ right; left. split.
      - intros [H|(_ & df & H & _)]; congruence.
      - exists e. now rewrite (main_parse_error h argv file entropy e). }
  destruct (find (fun c => negb (has_column c df)) REQUIRED) as [c|] eqn:Hf.
  { left. split.
    - right. split; [assumption|]. exists df. split; [assumption|].
      exists c. now apply find_missing_in.
    - now rewrite (main_missing_column h argv file entropy df c). }
  assert (Hno : ~ input_error h argv).
  { intros [H|(_ & df' & H & c & Hin & Hc)]; [congruence|].
    assert (df' = df) by congruence. subst df'.
    destruct (find_missing_some _ _ _ Hin Hc) as (c' & Hf' & _). congruence. }
  apply find_missing_forallb in Hf as Hall.
  destruct (required_split _ Hall) as [Hfeat Htarget].
  destruct (select_present _ _ Hfeat) as (X & HX & _).
  destruct (getitem_present _ _ Htarget) as (y & Hy).
  right.
  assert (Hfind := find_missing_none _ _ Hall).
  destruct (train_test_split h entropy X y (the_split_args y))
    as [[[[X_train X_test] y_train] y_test]|e] eqn:Hs.
  2:{ left. split; [assumption|]. exists e.
      unfold run, main. step. rewrite He, Hr. fold REQUIRED.
      cbn. rewrite check_columns_find, Hfind, HX, Hy.
      cbn. rewrite Hs. reflexivity. }
  destruct (fit h entropy the_forest_args X_train y_train) as [model|e] eqn:Hm.
  2:{ left. split; [assumption|]. exists e.
      unfold run, main. step. rewrite He, Hr. fold REQUIRED.
      cbn. rewrite check_columns_find, Hfind, HX, Hy.
      cbn. rewrite Hs. cbn. rewrite Hm. reflexivity. }
  destruct (score h model X_test y_test) as [acc|e] eqn:Ha.
  2:{ left. split; [assumption|]. exists e.
      unfold run, main. step. rewrite He, Hr. fold REQUIRED.
      cbn. rewrite check_columns_find, Hfind, HX, Hy.
      cbn. rewrite Hs. cbn. rewrite Hm. cbn. rewrite Ha. reflexivity. }
  assert (HT : Trained h argv entropy df X y X_train X_test y_train y_test
                 model acc).
  { repeat split; assumption. }
  rewrite (main_trained h argv file entropy _ _ _ _ _ _ _ _ _ HT).
  rewrite persist_cases.
  destruct (import_joblib h) as [u|e] eqn:Hi.
  - destruct (joblib_dump h model (out_path file)) as [u'|e'] eqn:Hd.
    + right. split; [assumption|]. split; [now destruct u'|].
      exists df, X, y, X_train, X_test, y_train, y_test, model, acc.
      split; [assumption|]. unfold persist_quiet. now rewrite Hi, Hd.
    + destruct (isinstance_ImportError e') eqn:Hie.
      * right. split; [assumption|]. split; [reflexivity|].
        exists df, X, y, X_train, X_test, y_train, y_test, model, acc.
        split; [assumption|]. unfold persist_quiet. now rewrite Hi, Hd.
      * left. split; [assumption|]. now exists e'.
  - destruct (isinstance_ImportError e) eqn:Hie.
    + right. split; [assumption|]. split; [reflexivity|].
      exists df, X, y, X_train, X_test, y_train, y_test, model, acc.
      split; [assumption|]. unfold persist_quiet. now rewrite Hi.
    + left. split; [assumption|]. now exists e.
Qed.

End Persistence.

(** ** Runs on the small host *)

Lemma sample_trained (argv : list string) (entropy : Z) (joblib disk : bool) :
  csv_path argv = PathOf "risk_training_data.csv" ->
  Trained (Demo.host Demo.files joblib disk) argv entropy
    Demo.sample Demo.sample_X Demo.sample_y
    Demo.sample_X_train Demo.sample_X_test
    Demo.sample_y_train Demo.sample_y_test
    Demo.sample_model Demo.sample_acc.
Proof.
  intros Hp. unfold Trained. rewrite Hp.
  repeat split; vm_compute; reflexivity.
Qed.

(** ** Loading and validation *)

Lemma substring_suffix (a b : string) : substring_of b (a ++ b).
Proof.
  exists a, EmptyString. f_equal.
  induction b as [|c b IH]; cbn; [reflexivity|]. now rewrite <- IH.
Qed.

Lemma string_app_assoc (a b c : string) : (a ++ b) ++ c = a ++ (b ++ c).
Proof.
  induction a as [|x a IH]; cbn; [reflexivity|]. now rewrite IH.
Qed.

Lemma substring_middle (a b c : string) : substring_of b (a ++ b ++ c).
Proof. now exists a, c. Qed.



(** C3.  When the parsed table lacks one of the six feature columns or the
    label column, the process exits with status 1 after printing a single
    line that names a required column the table lacks and lists the columns
    the table has; nothing is split, fitted or scored. *)
Theorem missing_column_fails_fast {Model : Type} (h : Host Model)
    (argv : list string) (file : string) (entropy : Z) (df : DataFrame) :
  path_exists h (csv_path argv) = true ->
  read_csv h (csv_path argv) = Ok df ->
  (exists c, In c REQUIRED /\ has_column c df = false) ->
  exit_code (fst (run h argv file entropy)) = 1
  /\ (exists col,
        In col REQUIRED /\ has_column col df = false
        /\ stdout (snd (run h argv file entropy)) = [missing_message col df]
        /\ substring_of col (missing_message col df)
        /\ substring_of (str_list (columns df)) (missing_message col df))
  /\ (forall ev, In ev (snd (run h argv file entropy)) -> is_training ev = false).
Proof.
  intros He Hr (c & Hin & Hc).
  destruct (find_missing_some _ _ _ Hin Hc) as (col & Hf & Hin' & Hc').
  rewrite (main_missing_column h argv file entropy df col He Hr Hf).
  cbn [fst snd]. split; [reflexivity|]. split.
  - exists col. repeat split; try assumption.
    + unfold missing_message. apply substring_middle.
    + unfold missing_message.
      rewrite <- !string_app_assoc. apply substring_suffix.
  - intros ev [<-|[<-|[]]]; reflexivity.
Qed.

Lemma missing_column_fails_fast_witness :
  (path_exists (Demo.host Demo.files true true)
     (csv_path ["train_risk_model.py"; "data/short.csv"]) = true
   /\ read_csv (Demo.host Demo.files true true)
        (csv_path ["train_risk_model.py"; "data/short.csv"]) = Ok Demo.two_missing
   /\ In "label" REQUIRED /\ has_column "label" Demo.two_missing = false)
  /\ exit_code
       (fst (run (Demo.host Demo.files true true)
               ["train_risk_model.py"; "data/short.csv"] Demo.script 0)) = 1.
Proof.
  split.
  - repeat split; try reflexivity. unfold REQUIRED. cbn. tauto.
  - refine (proj1 (missing_column_fails_fast (Demo.host Demo.files true true)
                     ["train_risk_model.py"; "data/short.csv"] Demo.script 0
                     Demo.two_missing eq_refl eq_refl _)).
    exists "label". split; [cbn; tauto|reflexivity].
Defined.

Lemma find_first_missing (pre post : list string) (col : string)
    (df : DataFrame) :
  (forall c, In c pre -> has_column c df = true) ->
  has_column col df = false ->
  find (fun c => negb (has_column c df)) (pre ++ col :: post) = Some col.
Proof.
  induction pre as [|p pre IH]; cbn; intros Hpre Hcol.
  - now rewrite Hcol.
  - rewrite (Hpre p (or_introl eq_refl)). cbn. apply IH; auto.
Qed.

(** C9.  The columns are looked for in the order totalCount, failureCount,
    failureRate, countLast1Min, avgAmount, maxAmount, label, and the run
    stops at the first one the table lacks: whatever else is missing after
    it, the only line printed names that column, and it shows the table's own
    columns after the words "Expected columns". *)
Theorem first_missing_column_is_reported {Model : Type} (h : Host Model)
    (argv : list string) (file : string) (entropy : Z) (df : DataFrame)
    (pre post : list string) (col : string) :
  path_exists h (csv_path argv) = true ->
  read_csv h (csv_path argv) = Ok df ->
  REQUIRED = (pre ++ col :: post)%list ->
  (forall c, In c pre -> has_column c df = true) ->
  has_column col df = false ->
  run h argv file entropy =
    (Exited 1,
     [ ReadCsv (csv_path argv);
       Print ("Missing column: " ++ col ++ ". Expected columns: "
                ++ str_list (columns df)) ])
  /\ REQUIRED = [ "totalCount"; "failureCount"; "failureRate";
                  "countLast1Min"; "avgAmount"; "maxAmount"; "label" ].
Proof.
  intros He Hr Hreq Hpre Hcol. split; [|reflexivity].
  apply main_missing_column; try assumption.
  rewrite Hreq. now apply find_first_missing.
Qed.

Lemma first_missing_column_is_reported_witness :
  run (Demo.host Demo.files true true)
    ["train_risk_model.py"; "data/short.csv"] Demo.script 0 =
  (Exited 1,
   [ ReadCsv (PathOf "data/short.csv");
     Print "Missing column: failureRate. Expected columns: ['totalCount', 'failureCount', 'countLast1Min', 'avgAmount', 'maxAmount']" ]).
Proof.
  refine (proj1 (first_missing_column_is_reported
                   (Demo.host Demo.files true true)
                   ["train_risk_model.py"; "data/short.csv"] Demo.script 0
                   Demo.two_missing
                   ["totalCount"; "failureCount"] 
                   ["countLast1Min"; "avgAmount"; "maxAmount"; "label"]
                   "failureRate" eq_refl eq_refl eq_refl _ eq_refl)).
  intros c [<-|[<-|[]]]; reflexivity.
Defined.

(** ** Exit status *)

(** C1, as the specification words it, fails: a file that exists and has all
    seven columns but no data rows makes the stratified split raise
    [ValueError]; nothing catches it, and the interpreter ends the process
    with status 1, although neither the file nor a column is missing.  So
    does a run on good data whose model cannot be written: the [OSError] of
    the dump is not an [ImportError]. *)
Lemma header_only_file_exits_1 :
  path_exists (Demo.host Demo.files true true)
    (csv_path ["train_risk_model.py"; "data/empty.csv"]) = true
  /\ read_csv (Demo.host Demo.files true true)
       (csv_path ["train_risk_model.py"; "data/empty.csv"]) = Ok Demo.header_only
  /\ forallb (fun c => has_column c Demo.header_only) REQUIRED = true
  /\ fst (run (Demo.host Demo.files true true)
            ["train_risk_model.py"; "data/empty.csv"] Demo.script 0)
     = Uncaught ValueError
  /\ exit_code (fst (run (Demo.host Demo.files true true)
                       ["train_risk_model.py"; "data/empty.csv"] Demo.script 0))
     = 1
  /\ ~ exits_1_exactly_on_input_error (Demo.host Demo.files true true)
         ["train_risk_model.py"; "data/empty.csv"] Demo.script 0
  /\ run (Demo.host Demo.files true false) ["train_risk_model.py"]
       Demo.script 0
     = (Uncaught OSError,
        (report_trace (Demo.host Demo.files true false)
           ["train_risk_model.py"] Demo.sample_X Demo.sample_y
           Demo.sample_X_train Demo.sample_X_test
           Demo.sample_y_train Demo.sample_y_test
           Demo.sample_model Demo.sample_acc
         ++ [ImportJoblib; Dump (out_path Demo.script)])%list).
Proof.
  repeat split; try reflexivity.
  intros [[Hex _] _].
  destruct (Hex eq_refl) as [Hf|(_ & df & Hr & c & Hin & Hc)].
  - discriminate Hf.
  - assert (Hdf : Ok df = Ok Demo.header_only)
      by (rewrite <- Hr; reflexivity).
    injection Hdf as ->. unfold REQUIRED in Hin. cbn in Hin.
    repeat (destruct Hin as [<-|Hin]; [discriminate Hc|]). contradiction.
Qed.

Lemma trained_exit_0 {Model : Type} (h : Host Model)
    (argv : list string) (file : string) (entropy : Z)
    df X y X_train X_test y_train y_test model acc :
  Trained h argv entropy df X y X_train X_test y_train y_test model acc ->
  persist_quiet h model file ->
  exit_code (fst (run h argv file entropy)) = 0.
Proof.
  intros HT Hq.
  rewrite (main_trained h argv file entropy _ _ _ _ _ _ _ _ _ HT).
  now apply persist_exit_code.
Qed.

(** C1, amended.  The process exits with status 1 when the input file does
    not exist or the parsed table lacks a required column; it also exits
    with status 1 whenever a library call raises an exception that the script
    does not catch.  It exits with status 0 exactly when parsing, splitting,
    fitting and scoring all return and persistence either returns or raises
    an [ImportError].  No other status occurs. *)
Theorem exit_status_by_cases {Model : Type} (h : Host Model)
    (argv : list string) (file : string) (entropy : Z) :
  (input_error h argv -> fst (run h argv file entropy) = Exited 1)
  /\ (exit_code (fst (run h argv file entropy)) = 1
      <-> input_error h argv
          \/ exists e, fst (run h argv file entropy) = Uncaught e)
  /\ (exit_code (fst (run h argv file entropy)) = 0
      <-> exists df X y X_train X_test y_train y_test model acc,
            Trained h argv entropy df X y X_train X_test y_train y_test
              model acc
            /\ persist_quiet h model file)
  /\ (exit_code (fst (run h argv file entropy)) = 0
      \/ exit_code (fst (run h argv file entropy)) = 1).
Proof.
  destruct (run_cases h argv file entropy)
    as [[Hin Hrun]|[[Hno [e Hrun]]|[Hno [Hrun HT]]]]; rewrite Hrun; cbn.
  - repeat split; try tauto; try discriminate.
    intros (df & X & y & Xa & Xb & ya & yb & m & acc & HT & Hq).
    assert (H := trained_exit_0 h argv file entropy _ _ _ _ _ _ _ _ _ HT Hq).
    rewrite Hrun in H. discriminate H.
  - repeat split; try tauto; try discriminate; eauto.
    intros (df & X & y & Xa & Xb & ya & yb & m & acc & HT & Hq).
    assert (H := trained_exit_0 h argv file entropy _ _ _ _ _ _ _ _ _ HT Hq).
    rewrite Hrun in H. discriminate H.
  - repeat split; try tauto; try discriminate.
    intros [H|[e H]]; [tauto|discriminate].
Qed.

(** ** Persistence *)

(** C2.  When everything up to the report has returned and joblib cannot be
    imported, the run ends normally with status 0: the import is the last
    thing it does, no file is written, and standard output holds exactly the
    accuracy line and the importances line. *)
Theorem joblib_missing_is_skipped {Model : Type} (h : Host Model)
    (argv : list string) (file : string) (entropy : Z)
    df X y X_train X_test y_train y_test model acc (e : exn) :
  Trained h argv entropy df X y X_train X_test y_train y_test model acc ->
  import_joblib h = Raise e ->
  isinstance_ImportError e = true ->
  fst (run h argv file entropy) = Normal tt
  /\ exit_code (fst (run h argv file entropy)) = 0
  /\ snd (run h argv file entropy)
     = (report_trace h argv X y X_train X_test y_train y_test model acc
          ++ [ImportJoblib])%list
  /\ artifacts (snd (run h argv file entropy)) = []
  /\ stdout (snd (run h argv file entropy))
     = [ "Test accuracy: " ++ format_4f h acc;
         importances_line h (feature_importances_ h model) ].
Proof.
  intros HT Hi He.
  rewrite (main_trained h argv file entropy _ _ _ _ _ _ _ _ _ HT).
  rewrite persist_cases, Hi, He. cbn [fst snd exit_code].
  repeat split; reflexivity.
Qed.

Lemma joblib_missing_is_skipped_witness :
  import_joblib (Demo.host Demo.files false true) = Raise ModuleNotFoundError
  /\ exit_code
       (fst (run (Demo.host Demo.files false true)
               ["train_risk_model.py"] Demo.script 0)) = 0.
Proof.
  split; [reflexivity|].
  exact (proj1 (proj2 (joblib_missing_is_skipped
                         (Demo.host Demo.files false true)
                         ["train_risk_model.py"] Demo.script 0
                         _ _ _ _ _ _ _ _ _ ModuleNotFoundError
                         (sample_trained ["train_risk_model.py"] 0 false true
                            eq_refl)
                         eq_refl eq_refl))).
Defined.

(** C10, as the specification words it, fails: the [except] clause does not
    look at where the [ImportError] was raised.  When joblib imports but the
    dump itself raises an [ImportError] (a module it loads while serializing
    is missing), the failure is swallowed like a missing joblib: the run
    ends normally with status 0, after the dump was attempted. *)
Lemma dump_ImportError_is_swallowed_too :
  import_joblib
    (with_joblib_dump (Demo.host Demo.files true true)
       (fun _ _ => Raise ImportError))
  = Ok tt
  /\ joblib_dump
       (with_joblib_dump (Demo.host Demo.files true true)
          (fun _ _ => Raise ImportError))
       Demo.sample_model (out_path Demo.script)
     = Raise ImportError
  /\ run (with_joblib_dump (Demo.host Demo.files true true)
            (fun _ _ => Raise ImportError))
       ["train_risk_model.py"] Demo.script 0
     = (Normal tt,
        (report_trace (Demo.host Demo.files true true)
           ["train_risk_model.py"] Demo.sample_X Demo.sample_y
           Demo.sample_X_train Demo.sample_X_test
           Demo.sample_y_train Demo.sample_y_test
           Demo.sample_model Demo.sample_acc
         ++ [ImportJoblib; Dump (out_path Demo.script)])%list)
  /\ exit_code
       (fst (run (with_joblib_dump (Demo.host Demo.files true true)
                    (fun _ _ => Raise ImportError))
               ["train_risk_model.py"] Demo.script 0))
     = 0.
Proof. repeat split; reflexivity. Qed.

(** C10, amended.  Once the report has been printed, an exception raised
    inside the [try] block is swallowed exactly when it is an [ImportError]
    (or a subclass), whether the import of joblib raised it or the dump did:
    the run then ends normally with status 0, and in the second case the
    dump has been attempted.  Any other exception from the import or from
    the dump (an [OSError] from writing the file, say) is left uncaught and
    ends the process with a non-zero status.  In all four cases standard
    output holds exactly the accuracy and importances lines. *)
Theorem exactly_ImportError_is_swallowed {Model : Type} (h : Host Model)
    (argv : list string) (file : string) (entropy : Z)
    df X y X_train X_test y_train y_test model acc :
  Trained h argv entropy df X y X_train X_test y_train y_test model acc ->
  (forall e,
      import_joblib h = Raise e ->
      (isinstance_ImportError e = true ->
       fst (run h argv file entropy) = Normal tt
       /\ exit_code (fst (run h argv file entropy)) = 0)
      /\ (isinstance_ImportError e = false ->
          fst (run h argv file entropy) = Uncaught e
          /\ exit_code (fst (run h argv file entropy)) <> 0)
      /\ snd (run h argv file entropy)
         = (report_trace h argv X y X_train X_test y_train y_test model acc
              ++ [ImportJoblib])%list
      /\ stdout (snd (run h argv file entropy))
         = [ "Test accuracy: " ++ format_4f h acc;
             importances_line h (feature_importances_ h model) ])
  /\ (forall u e,
      import_joblib h = Ok u ->
      joblib_dump h model (out_path file) = Raise e ->
      (isinstance_ImportError e = true ->
       fst (run h argv file entropy) = Normal tt
       /\ exit_code (fst (run h argv file entropy)) = 0)
      /\ (isinstance_ImportError e = false ->
          fst (run h argv file entropy) = Uncaught e
          /\ exit_code (fst (run h argv file entropy)) <> 0)
      /\ snd (run h argv file entropy)
         = (report_trace h argv X y X_train X_test y_train y_test model acc
              ++ [ImportJoblib; Dump (out_path file)])%list
      /\ stdout (snd (run h argv file entropy))
         = [ "Test accuracy: " ++ format_4f h acc;
             importances_line h (feature_importances_ h model) ]).
Proof.
  intros HT.
  rewrite (main_trained h argv file entropy _ _ _ _ _ _ _ _ _ HT).
  rewrite persist_cases. split.
  - intros e ->. cbn [fst snd]. split; [|split; [|split]].
    + intros ->. auto.
    + intros ->. split; [reflexivity|]. cbn. discriminate.
    + reflexivity.
    + reflexivity.
  - intros u e -> ->. cbn [fst snd]. split; [|split; [|split]].
    + intros ->. auto.
    + intros ->. split; [reflexivity|]. cbn. discriminate.
    + reflexivity.
    + reflexivity.
Qed.

Lemma exactly_ImportError_is_swallowed_witness :
  joblib_dump (Demo.host Demo.files true false) Demo.sample_model
    (out_path Demo.script) = Raise OSError
  /\ fst (run (Demo.host Demo.files true false)
            ["train_risk_model.py"] Demo.script 0) = Uncaught OSError
  /\ fst (run (with_joblib_dump (Demo.host Demo.files true true)
                 (fun _ _ => Raise ModuleNotFoundError))
            ["train_risk_model.py"] Demo.script 0) = Normal tt.
Proof.
  split; [reflexivity|]. split.
  - exact (proj1 (proj1 (proj2 (proj2
             (exactly_ImportError_is_swallowed
                (Demo.host Demo.files true false)
                ["train_risk_model.py"] Demo.script 0
                _ _ _ _ _ _ _ _ _
                (sample_trained ["train_risk_model.py"] 0 true false eq_refl))
             tt OSError eq_refl eq_refl)) eq_refl)).
  - exact (proj1 (proj1 (proj2
             (exactly_ImportError_is_swallowed
                (with_joblib_dump (Demo.host Demo.files true true)
                   (fun _ _ => Raise ModuleNotFoundError))
                ["train_risk_model.py"] Demo.script 0
                _ _ _ _ _ _ _ _ _
                (sample_trained ["train_risk_model.py"] 0 true true eq_refl))
             tt ModuleNotFoundError eq_refl eq_refl) eq_refl)).
Defined.

(** ** Columns are taken by name *)

Lemma has_column_In (c : string) (df : DataFrame) :
  has_column c df = true <-> In c (columns df).
Proof.
  unfold has_column. rewrite existsb_exists. split.
  - intros (x & Hin & Heq). apply String.eqb_eq in Heq. now subst.
  - intros Hin. exists c. split; [assumption|apply String.eqb_refl].
Qed.

Lemma getitem_Ok_In (c : string) (df : DataFrame) (s : Series) :
  getitem c df = Ok s -> In (c, s) df.
Proof.
  induction df as [|[name s'] df IH]; cbn; [discriminate|].
  destruct (String.eqb c name) eqn:E.
  - apply String.eqb_eq in E. subst. intros [= ->]. now left.
  - intros H. right. auto.
Qed.

Lemma getitem_In_Ok (c : string) (df : DataFrame) (s : Series) :
  NoDup (columns df) -> In (c, s) df -> getitem c df = Ok s.
Proof.
  unfold columns.
  induction df as [|[name s'] df IH]; cbn; [contradiction|].
  intros Hnd Hin. inversion Hnd as [|? ? Hnotin Hnd']; subst.
  destruct Hin as [[= -> ->]|Hin].
  - now rewrite String.eqb_refl.
  - destruct (String.eqb c name) eqn:E; [|auto].
    apply String.eqb_eq in E. subst. exfalso. apply Hnotin.
    now apply (in_map fst) in Hin.
Qed.

Lemma getitem_Raise (c : string) (df : DataFrame) (e : exn) :
  getitem c df = Raise e -> e = KeyError.
Proof.
  induction df as [|[name s] df IH]; cbn; [congruence|].
  destruct (String.eqb c name); [discriminate|assumption].
Qed.

(** With distinct names, the order of the columns does not matter to a
    lookup by name. *)
Lemma getitem_Permutation (c : string) (df df' : DataFrame) :
  Permutation df df' -> NoDup (columns df') ->
  getitem c df' = getitem c df.
Proof.
  intros HP Hnd'.
  assert (Hnd : NoDup (columns df)).
  { unfold columns in *. eapply Permutation_NoDup; [|exact Hnd'].
    apply Permutation_map. now symmetry. }
  destruct (getitem c df) as [s|e] eqn:E.
  - apply getitem_In_Ok; [assumption|].
    eapply Permutation_in; [exact HP|]. now apply getitem_Ok_In.
  - destruct (getitem c df') as [s'|e'] eqn:E'.
    + apply getitem_Ok_In in E'.
      apply (Permutation_in _ (Permutation_sym HP)) in E'.
      apply (getitem_In_Ok _ _ _ Hnd) in E'. congruence.
    + apply getitem_Raise in E, E'. congruence.
Qed.

(** Columns added after the ones a table has do not change a lookup that
    already succeeds. *)
Lemma getitem_app (c : string) (df extra : DataFrame) :
  has_column c df = true -> getitem c (df ++ extra)%list = getitem c df.
Proof.
  unfold has_column, columns.
  induction df as [|[name s] df IH]; cbn; [discriminate|].
  destruct (String.eqb c name); cbn; auto.
Qed.

Lemma select_ext (cols : list string) (df df' : DataFrame) :
  (forall c, In c cols -> getitem c df' = getitem c df) ->
  select cols df' = select cols df.
Proof.
  induction cols as [|c cols IH]; cbn; [reflexivity|].
  intros H. rewrite (H c (or_introl eq_refl)), IH; auto.
Qed.

Lemma remove_one_Permutation (x : string * Series) (l r : DataFrame) :
  remove_one x l = Some r -> Permutation (x :: r) l.
Proof.
  revert r. induction l as [|c l IH]; cbn; [discriminate|].
  intros r. destruct (column_eq_dec x c) as [->|_].
  - intros [= ->]. reflexivity.
  - destruct (remove_one x l) as [r'|]; [|discriminate].
    intros [= <-]. rewrite perm_swap. constructor. now apply IH.
Qed.

Lemma same_columns_Permutation (df df' : DataFrame) :
  same_columns df df' = true -> Permutation df df'.
Proof.
  revert df'. induction df as [|c df IH]; cbn; intros df'.
  - destruct df'; [constructor|discriminate].
  - destruct (remove_one c df') as [r|] eqn:E; [|discriminate].
    intros H. rewrite <- (remove_one_Permutation _ _ _ E).
    constructor. now apply IH.
Qed.

Section ByName.

Context {Model : Type} (h : Host Model).

#[local] Arguments REQUIRED : simpl never.
#[local] Arguments FEATURE_COLUMNS : simpl never.
#[local] Arguments TARGET_COLUMN : simpl never.

(** Two tables that both pass the column check and give the same features
    and labels give the same run. *)
Lemma run_same_columns (argv : list string) (file : string) (entropy : Z)
    (df df' : DataFrame) :
  forallb (fun c => has_column c df) REQUIRED = true ->
  forallb (fun c => has_column c df') REQUIRED = true ->
  select FEATURE_COLUMNS df' = select FEATURE_COLUMNS df ->
  getitem TARGET_COLUMN df' = getitem TARGET_COLUMN df ->
  run (with_table h df') argv file entropy
  = run (with_table h df) argv file entropy.
Proof.
  intros Hall Hall' HX Hy. unfold run, main. step. cbn.
  destruct (path_exists h (csv_path argv)); [|reflexivity]. cbn.
  fold REQUIRED.
  rewrite !check_columns_find.
  rewrite (find_missing_none _ _ Hall), (find_missing_none _ _ Hall').
  rewrite HX, Hy. reflexivity.
Qed.

End ByName.

(** C8.  A table that has the seven columns may carry them in any order and
    may carry other columns besides: the features are the six named columns,
    taken by name in the fixed order, the labels are the label column, and
    the whole run (outcome, library calls and printed text) is the same as
    on the table without the extra columns and with the header in its
    original order. *)
Theorem extra_columns_and_order_are_ignored {Model : Type} (h : Host Model)
    (argv : list string) (file : string) (entropy : Z)
    (df extra df' : DataFrame) :
  forallb (fun c => has_column c df) REQUIRED = true ->
  Permutation (df ++ extra)%list df' ->
  NoDup (columns df') ->
  run (with_table h df') argv file entropy
  = run (with_table h df) argv file entropy
  /\ (exists X y,
        select FEATURE_COLUMNS df' = Ok X
        /\ select FEATURE_COLUMNS df = Ok X
        /\ columns X = FEATURE_COLUMNS
        /\ getitem TARGET_COLUMN df' = Ok y
        /\ getitem TARGET_COLUMN df = Ok y).
Proof.
  intros Hall HP Hnd.
  assert (Hget : forall c, In c REQUIRED -> getitem c df' = getitem c df).
  { intros c Hc. rewrite (getitem_Permutation c _ _ HP Hnd).
    apply getitem_app. rewrite forallb_forall in Hall. now apply Hall. }
  assert (Hall' : forallb (fun c => has_column c df') REQUIRED = true).
  { apply forallb_forall. intros c Hc.
    rewrite forallb_forall in Hall. specialize (Hall c Hc).
    apply has_column_In. apply has_column_In in Hall.
    unfold columns in *.
    eapply Permutation_in; [apply Permutation_map; exact HP|].
    rewrite map_app. apply in_or_app. now left. }
  assert (HX : select FEATURE_COLUMNS df' = select FEATURE_COLUMNS df).
  { apply select_ext. intros c Hc. apply Hget.
    unfold REQUIRED. apply in_or_app. now left. }
  assert (Hy : getitem TARGET_COLUMN df' = getitem TARGET_COLUMN df).
  { apply Hget. unfold REQUIRED. apply in_or_app. right. now left. }
  split.
  - now apply run_same_columns.
  - destruct (required_split _ Hall) as [Hfeat Htarget].
    destruct (select_present _ _ Hfeat) as (X & HXdf & Hcols).
    destruct (getitem_present _ _ Htarget) as (y & Hydf).
    exists X, y. rewrite HX, Hy. auto.
Qed.

Lemma extra_columns_and_order_are_ignored_witness :
  run (with_table (Demo.host Demo.files true true) Demo.sample_wide)
    ["train_risk_model.py"] Demo.script 0
  = run (with_table (Demo.host Demo.files true true) Demo.sample)
      ["train_risk_model.py"] Demo.script 0.
Proof.
  refine (proj1 (extra_columns_and_order_are_ignored
                   (Demo.host Demo.files true true)
                   ["train_risk_model.py"] Demo.script 0
                   Demo.sample
                   [ nth 1 Demo.sample_wide ("", []);
                     nth 8 Demo.sample_wide ("", []) ]
                   Demo.sample_wide eq_refl _ _)).
  - apply same_columns_Permutation. reflexivity.
  - apply (NoDup_count_occ' string_dec). intros c Hc.
    repeat (destruct Hc as [<-|Hc]; [reflexivity|]). contradiction.
Defined.

(** ** Reproducibility *)

Section Seeds.

Context {Model : Type} (h : Host Model).

#[local] Arguments REQUIRED : simpl never.
#[local] Arguments FEATURE_COLUMNS : simpl never.
#[local] Arguments TARGET_COLUMN : simpl never.

(** The unseeded random state reaches the run only through the split and the
    fit, and both are called with the seed 42. *)
Lemma run_entropy_irrelevant (argv : list string) (file : string)
    (e1 e2 : Z) :
  seeded_reproducible h ->
  run h argv file e1 = run h argv file e2.
Proof.
  intros [Hsplit Hfit]. unfold run, main. step.
  destruct (path_exists h (csv_path argv)); [|reflexivity]. cbn.
  destruct (read_csv h (csv_path argv)) as [df|e]; [|reflexivity].
  fold REQUIRED. rewrite check_columns_find.
  destruct (find _ REQUIRED); [reflexivity|].
  destruct (select FEATURE_COLUMNS df) as [X|e]; [|reflexivity].
  destruct (getitem TARGET_COLUMN df) as [y|e]; [|reflexivity].
  unfold the_split_args, the_forest_args.
  rewrite (Hsplit e1 e2).
  destruct (train_test_split h e2 X y _)
    as [[[[X_train X_test] y_train] y_test]|e]; [|reflexivity].
  rewrite (Hfit e1 e2). reflexivity.
Qed.

End Seeds.

Lemma demo_seeded_reproducible (files : list (string * DataFrame))
    (joblib disk : bool) :
  seeded_reproducible (Demo.host files joblib disk).
Proof. split; intros; reflexivity. Qed.

(** C5.  Provided the libraries honour an integer [random_state], two runs
    on the same input agree whatever the process's own random state is: same
    outcome, same calls, same printed accuracy and importances. *)
Theorem seeded_runs_agree {Model : Type} (h : Host Model)
    (argv : list string) (file : string) (e1 e2 : Z) :
  seeded_reproducible h ->
  run h argv file e1 = run h argv file e2
  /\ stdout (snd (run h argv file e1)) = stdout (snd (run h argv file e2))
  /\ the_forest_args = {| n_estimators := 100; forest_random_state := Some 42 |}
  /\ (forall y, random_state (the_split_args y) = Some 42).
Proof.
  intros H. rewrite (run_entropy_irrelevant h argv file e1 e2 H).
  repeat split.
Qed.

Lemma seeded_runs_agree_witness :
  seeded_reproducible (Demo.host Demo.files true true)
  /\ run (Demo.host Demo.files true true) ["train_risk_model.py"] Demo.script 1
     = run (Demo.host Demo.files true true) ["train_risk_model.py"] Demo.script 2.
Proof.
  split; [apply demo_seeded_reproducible|].
  exact (proj1 (seeded_runs_agree (Demo.host Demo.files true true)
                  ["train_risk_model.py"] Demo.script 1 2
                  (demo_seeded_reproducible Demo.files true true))).
Defined.

(** ** Rounding for display *)

Section Rounding.

Local Open Scope Q_scope.

(** [rint] is within one half of its argument. *)
Lemma rint_error (q : Q) : Qabs (inject_Z (rint q) - q) <= 1 # 2.
Proof.
  unfold rint.
  assert (Hlo := Qfloor_le q). assert (Hhi := Qlt_floor q).
  rewrite inject_Z_plus in Hhi. change (inject_Z 1) with 1 in Hhi.
  apply Qabs_Qle_condition.
  destruct (Qcompare_spec (q - inject_Z (Qfloor q)) (1 # 2)) as [E|L|G].
  - destruct (Z.even (Qfloor q));
      [|rewrite inject_Z_plus; change (inject_Z 1) with 1]; lra.
  - lra.
  - rewrite inject_Z_plus. change (inject_Z 1) with 1. lra.
Qed.

(** A value rounded to four decimals is a whole number of ten-thousandths,
    within half a ten-thousandth of the value. *)
Lemma round4_error (q : Q) : Qabs (round4 q - q) <= 1 # 20000.
Proof.
  unfold round4. rewrite Qmake_Qdiv.
  assert (H := rint_error (q * inject_Z 10000)).
  apply Qabs_Qle_condition in H. apply Qabs_Qle_condition.
  unfold Qdiv. change (/ inject_Z (Z.pos 10000)) with (1 # 10000).
  change (inject_Z 10000) with 10000 in *.
  lra.
Qed.

End Rounding.

(** ** The report *)

Lemma select_columns (cols : list string) (df X : DataFrame) :
  select cols df = Ok X -> columns X = cols.
Proof.
  revert X. induction cols as [|c cols IH]; cbn; intros X.
  - now intros [= <-].
  - destruct (getitem c df) as [s|]; [|discriminate].
    destruct (select cols df) as [r|]; [|discriminate].
    intros [= <-]. unfold columns in *. cbn. now rewrite (IH r).
Qed.

Lemma columns_take_rows_df (idx : list nat) (X : DataFrame) :
  columns (take_rows_df idx X) = columns X.
Proof.
  unfold columns, take_rows_df. rewrite map_map. reflexivity.
Qed.

(** A run that exits with status 0 got as far as the report, and its trace
    starts with the trace of the report. *)
Lemma successful_run {Model : Type} (h : Host Model)
    (argv : list string) (file : string) (entropy : Z) :
  exit_code (fst (run h argv file entropy)) = 0 ->
  exists df X y X_train X_test y_train y_test model acc suffix,
    Trained h argv entropy df X y X_train X_test y_train y_test model acc
    /\ snd (run h argv file entropy)
       = (report_trace h argv X y X_train X_test y_train y_test model acc
            ++ suffix)%list.
Proof.
  intros H0.
  destruct (run_cases h argv file entropy)
    as [[_ Hrun]|[[_ [e Hrun]]|[_ [_ HT]]]].
  - rewrite Hrun in H0. discriminate.
  - rewrite Hrun in H0. discriminate.
  - destruct HT as (df & X & y & Xa & Xb & ya & yb & m & acc & HT & _).
    exists df, X, y, Xa, Xb, ya, yb, m, acc.
    rewrite (main_trained h argv file entropy _ _ _ _ _ _ _ _ _ HT).
    rewrite persist_cases.
    destruct (import_joblib h) as [u|e].
    + destruct (joblib_dump h m (out_path file)) as [u'|e'];
        eexists; (split; [exact HT|reflexivity]).
    + eexists; (split; [exact HT|reflexivity]).
Qed.

Lemma Qsum_repeat (q : Q) (n : nat) :
  (Qsum (repeat q n) == inject_Z (Z.of_nat n) * q)%Q.
Proof.
  induction n as [|n IH].
  - cbn. ring.
  - cbn [repeat Qsum fold_right]. fold (Qsum (repeat q n)). rewrite IH.
    rewrite Nat2Z.inj_succ. unfold Z.succ. rewrite inject_Z_plus.
    change (inject_Z 1) with 1%Q. ring.
Qed.

Lemma demo_split_keeps_columns (files : list (string * DataFrame))
    (joblib disk : bool) :
  split_keeps_columns (Demo.host files joblib disk).
Proof.
  intros e X y a Xa Xb ya yb. cbn. unfold Demo.split.
  destruct (negb _); [discriminate|].
  destruct (Demo.split_ok _ _ _ _); [|discriminate].
  intros [= <- <- _ _]. now rewrite !columns_take_rows_df.
Qed.

Lemma demo_importances_law (files : list (string * DataFrame))
    (joblib disk : bool) :
  importances_law (Demo.host files joblib disk) 0.
Proof.
  intros e a X y m. cbn [fit feature_importances_ Demo.host].
  unfold Demo.fit_majority, Demo.importances.
  destruct X as [|c X]; [discriminate|].
  destruct y as [|l y]; [discriminate|].
  intros [= <-]. cbn [Demo.n_features Demo.has_split].
  destruct (negb _); split; [|split| |split].
  - rewrite repeat_length. unfold columns. now rewrite length_map.
  - apply Forall_forall. intros i Hi. apply repeat_spec in Hi. subst i.
    unfold Qle. cbn [Qnum Qden]. split; lia.
  - left.
    match goal with
    | |- (Qabs (?sum - 1) <= _)%Q => assert (E : (sum == 1)%Q)
    end.
    { rewrite Qsum_repeat. unfold Qeq. cbn [Qnum Qden Qmult inject_Z].
      rewrite Pos.mul_1_l, Z.mul_1_r, Z.mul_1_r.
      cbn [List.length]. rewrite <- Pos.of_nat_succ, Zpos_P_of_succ_nat.
      lia. }
    rewrite E. apply Qle_bool_iff. reflexivity.
  - rewrite repeat_length. unfold columns. now rewrite length_map.
  - apply Forall_forall. intros i Hi. apply repeat_spec in Hi. subst i.
    unfold Qle. cbn. split; lia.
  - right. apply Forall_forall. intros i Hi.
    apply repeat_spec in Hi. now subst.
Qed.

Lemma round4_zero (q : Q) : (q == 0)%Q -> round4 q = (0 # 10000)%Q.
Proof.
  intros H. unfold round4, rint.
  assert (E : (q * inject_Z 10000 == 0)%Q) by (rewrite H; reflexivity).
  rewrite (Qfloor_comp _ _ E). change (Qfloor 0) with 0%Z.
  assert (E' : (q * inject_Z 10000 - inject_Z 0 == 0)%Q)
    by (rewrite E; reflexivity).
  rewrite (Qcompare_comp _ _ E' _ _ (Qeq_refl _)).
  reflexivity.
Qed.

(** [dict(zip(FEATURE_COLUMNS, values))] for six values: the names are
    distinct, so the dict is the six pairs in the order of the names. *)
Lemma dict_of_features {V : Type} (v1 v2 v3 v4 v5 v6 : V) :
  dict (combine FEATURE_COLUMNS [v1; v2; v3; v4; v5; v6])
  = [ ("totalCount", v1); ("failureCount", v2); ("failureRate", v3);
      ("countLast1Min", v4); ("avgAmount", v5); ("maxAmount", v6) ].
Proof. reflexivity. Qed.

(** C6, as the specification words it, fails: on a table whose labels are
    all equal the run succeeds, no tree of the forest has a split, and the
    six importances it reports are all zero, so they do not sum to 1. *)
Lemma one_class_importances_are_zero :
  exit_code (fst (run (Demo.host Demo.files true true)
                    ["train_risk_model.py"; "data/quiet.csv"] Demo.script 0))
  = 0
  /\ stdout (snd (run (Demo.host Demo.files true true)
                    ["train_risk_model.py"; "data/quiet.csv"] Demo.script 0))
     = [ "Test accuracy: 1.0000";
         "Feature importances: {'totalCount': 0.0, 'failureCount': 0.0, 'failureRate': 0.0, 'countLast1Min': 0.0, 'avgAmount': 0.0, 'maxAmount': 0.0}";
         "Model saved to scripts/risk_model.joblib" ]
  /\ (exists df X y X_train X_test y_train y_test model acc,
        Trained (Demo.host Demo.files true true)
          ["train_risk_model.py"; "data/quiet.csv"] 0
          df X y X_train X_test y_train y_test model acc
        /\ feature_importances_ (Demo.host Demo.files true true) model
           = [0; 0; 0; 0; 0; 0]%Q
        /\ ~ (Qsum (feature_importances_ (Demo.host Demo.files true true)
                      model) == 1)%Q).
Proof.
  split; [vm_compute; reflexivity|].
  split; [vm_compute; reflexivity|].
  do 9 eexists. split; [|split].
  - unfold Trained. repeat split; vm_compute; reflexivity.
  - reflexivity.
  - vm_compute. discriminate.
Qed.

Lemma demo_round4_law (files : list (string * DataFrame))
    (joblib disk : bool) :
  round4_law (Demo.host files joblib disk) 0.
Proof.
  split.
  - intros x _. exists (rint (x * inject_Z 10000)). split.
    + cbn [np_round4 Demo.host]. unfold round4.
      setoid_replace ((rint (x * inject_Z 10000) # 10000)
                      - (rint (x * inject_Z 10000) # 10000))%Q with 0%Q
        by ring.
      apply Qle_bool_iff. reflexivity.
    + setoid_replace ((1 # 2) + 0)%Q with (1 # 2)%Q by ring.
      apply rint_error.
  - intros x Hx. cbn [np_round4 Demo.host]. now rewrite (round4_zero x Hx).
Qed.

(** What the rounding contract gives for one value. *)
Lemma rounded_value_error {Model : Type} (h : Host Model) (delta x : Q) :
  round4_law h delta -> (0 <= delta)%Q -> (0 <= x <= 1)%Q ->
  (Qabs (np_round4 h x - x) <= (1 # 20000) + (2 # 1) * delta)%Q.
Proof.
  intros [Hround _] Hd Hx.
  destruct (Hround x Hx) as (k & Hk1 & Hk2).
  rewrite Qmake_Qdiv in Hk1. unfold Qdiv in Hk1.
  change (/ inject_Z (Z.pos 10000))%Q with (1 # 10000)%Q in Hk1.
  change (inject_Z 10000) with (10000 # 1)%Q in Hk2.
  apply Qabs_Qle_condition in Hk1, Hk2. apply Qabs_Qle_condition.
  lra.
Qed.

(** C6, amended.  In a run that exits with status 0, the second line of
    standard output is the importances line: it pairs the six feature names,
    in the order totalCount, failureCount, failureRate, countLast1Min,
    avgAmount, maxAmount, with the fitted model's importances, each passed
    through numpy's [round(4)].  Provided the libraries keep their
    contracts (one importance per feature column, between 0 and 1, summing
    to 1 within the floating-point tolerance [eps] unless the forest has no
    split; rounding to the nearest ten-thousandth within [delta]), every
    displayed value is within 0.00005 + 2 delta of the importance it stands
    for, and either the displayed values sum to 1 within
    eps + 0.0003 + 12 delta, or they are all zero. *)
Theorem importances_are_reported {Model : Type} (h : Host Model)
    (argv : list string) (file : string) (entropy : Z) (eps delta : Q) :
  split_keeps_columns h ->
  importances_law h eps ->
  round4_law h delta ->
  (0 <= delta)%Q ->
  exit_code (fst (run h argv file entropy)) = 0 ->
  exists df X y X_train X_test y_train y_test model acc
         (i1 i2 i3 i4 i5 i6 : Q),
    Trained h argv entropy df X y X_train X_test y_train y_test model acc
    /\ feature_importances_ h model = [i1; i2; i3; i4; i5; i6]
    /\ nth_error (stdout (snd (run h argv file entropy))) 1
       = Some ("Feature importances: "
                 ++ str_dict (repr_float64 h)
                      [ ("totalCount", np_round4 h i1);
                        ("failureCount", np_round4 h i2);
                        ("failureRate", np_round4 h i3);
                        ("countLast1Min", np_round4 h i4);
                        ("avgAmount", np_round4 h i5);
                        ("maxAmount", np_round4 h i6) ])
    /\ Forall (fun i => (Qabs (np_round4 h i - i)
                         <= (1 # 20000) + (2 # 1) * delta)%Q)
         [i1; i2; i3; i4; i5; i6]
    /\ ((Qabs (np_round4 h i1 + np_round4 h i2 + np_round4 h i3
               + np_round4 h i4 + np_round4 h i5 + np_round4 h i6 - 1)
         <= eps + (3 # 10000) + (12 # 1) * delta)%Q
        \/ Forall (fun i => (np_round4 h i == 0)%Q)
             [i1; i2; i3; i4; i5; i6]).
Proof.
  intros Hcols Himp Hround Hdelta H0.
  destruct (successful_run h argv file entropy H0)
    as (df & X & y & Xa & Xb & ya & yb & m & acc & suffix & HT & Htrace).
  exists df, X, y, Xa, Xb, ya, yb, m, acc.
  assert (HT' := HT).
  destruct HT' as (_ & _ & _ & HX & _ & Hs & Hf & _).
  destruct (Himp _ _ _ _ _ Hf) as (Hlen & Hrange & Hsum).
  destruct (Hcols _ _ _ _ _ _ _ _ Hs) as [Hca _].
  rewrite Hca, (select_columns _ _ _ HX) in Hlen.
  destruct (feature_importances_ h m)
    as [|i1 [|i2 [|i3 [|i4 [|i5 [|i6 [|i7 l]]]]]]] eqn:Ei;
    try discriminate Hlen.
  exists i1, i2, i3, i4, i5, i6.
  split; [exact HT|]. split; [reflexivity|]. split.
  { rewrite Htrace. unfold report_trace. cbn [stdout flat_map app nth_error].
    rewrite Ei. unfold importances_line. cbn [map].
    now rewrite dict_of_features. }
  assert (Herr : Forall (fun i => (Qabs (np_round4 h i - i)
                                   <= (1 # 20000) + (2 # 1) * delta)%Q)
                   [i1; i2; i3; i4; i5; i6]).
  { eapply Forall_impl; [|exact Hrange].
    intros i Hi. now apply rounded_value_error. }
  split; [exact Herr|].
  destruct Hsum as [Hsum|Hzero].
  - left. cbn [Qsum fold_right] in Hsum.
    repeat match goal with
           | H : Forall _ (_ :: _) |- _ => inversion H; clear H; subst
           end.
    repeat match goal with
           | H : (Qabs _ <= _)%Q |- _ => apply Qabs_Qle_condition in H
           end.
    apply Qabs_Qle_condition. lra.
  - right. eapply Forall_impl; [|exact Hzero].
    intros i Hi. now apply (proj2 Hround).
Qed.

Lemma importances_are_reported_witness :
  split_keeps_columns (Demo.host Demo.files true true)
  /\ importances_law (Demo.host Demo.files true true) 0
  /\ round4_law (Demo.host Demo.files true true) 0
  /\ exit_code (fst (run (Demo.host Demo.files true true)
                       ["train_risk_model.py"] Demo.script 0)) = 0
  /\ exists (model : Demo.model) (i1 i2 i3 i4 i5 i6 : Q),
       feature_importances_ (Demo.host Demo.files true true) model
       = [i1; i2; i3; i4; i5; i6]
       /\ nth_error
            (stdout (snd (run (Demo.host Demo.files true true)
                            ["train_risk_model.py"] Demo.script 0))) 1
          = Some ("Feature importances: "
                    ++ str_dict Demo.shortest
                         [ ("totalCount", round4 i1);
                           ("failureCount", round4 i2);
                           ("failureRate", round4 i3);
                           ("countLast1Min", round4 i4);
                           ("avgAmount", round4 i5);
                           ("maxAmount", round4 i6) ]).
Proof.
  split; [apply demo_split_keeps_columns|].
  split; [apply demo_importances_law|].
  split; [apply demo_round4_law|].
  split; [reflexivity|].
  destruct (importances_are_reported (Demo.host Demo.files true true)
              ["train_risk_model.py"] Demo.script 0 0 0
              (demo_split_keeps_columns Demo.files true true)
              (demo_importances_law Demo.files true true)
              (demo_round4_law Demo.files true true)
              (Qle_refl 0)
              eq_refl)
    as (df & X & y & Xa & Xb & ya & yb & m & acc
        & i1 & i2 & i3 & i4 & i5 & i6 & HT & Hi & Hline & _).
  exists m, i1, i2, i3, i4, i5, i6. auto.
Defined.

(** ** The split *)

Lemma take_rows_all (y : Series) : take_rows (seq 0 (List.length y)) y = y.
Proof.
  unfold take_rows. induction y as [|c y IH]; [reflexivity|].
  cbn [List.length seq map nth]. f_equal.
  rewrite <- seq_shift, map_map. exact IH.
Qed.

(** Cutting the row positions in two cuts the labels in two. *)
Lemma labels_partition (train_idx test_idx : list nat) (y : Series) :
  Permutation (train_idx ++ test_idx) (seq 0 (List.length y)) ->
  Permutation (take_rows train_idx y ++ take_rows test_idx y) y.
Proof.
  intros HP. unfold take_rows. rewrite <- map_app.
  rewrite (Permutation_map _ HP). fold (take_rows (seq 0 (List.length y)) y).
  now rewrite take_rows_all.
Qed.

Lemma filter_split_Permutation {A : Type} (f : A -> bool) (l : list A) :
  Permutation (filter (fun x => negb (f x)) l ++ filter f l) l.
Proof.
  induction l as [|x l IH]; cbn; [constructor|].
  destruct (f x); cbn.
  - rewrite <- Permutation_middle. now constructor.
  - now constructor.
Qed.

Lemma class_count_app (c : cell) (a b : Series) :
  class_count c (a ++ b)%list = class_count c a + class_count c b.
Proof. unfold class_count. rewrite count_occ_app. lia. Qed.

Lemma class_count_Permutation (c : cell) (a b : Series) :
  Permutation a b -> class_count c a = class_count c b.
Proof.
  intros HP. unfold class_count. f_equal.
  now apply (Permutation_count_occ cell_eq_dec).
Qed.

Lemma rows_app (a b : Series) : rows (a ++ b)%list = rows a + rows b.
Proof. unfold rows. rewrite length_app. lia. Qed.

Lemma class_count_nonneg (c : cell) (y : Series) : 0 <= class_count c y.
Proof. unfold class_count. lia. Qed.

(** A test size of 0.2 asks for a fifth of the rows, rounded up. *)
Lemma fifth_rounded_up (n : Z) :
  Qceiling ((2 # 10) * inject_Z n) = (n + 4) / 5.
Proof.
  unfold Qceiling, Qfloor, Qopp, Qmult, inject_Z. cbn [Qnum Qden].
  change (Z.pos (10 * 1)) with 10.
  assert (H1 := Z.div_mod (- (2 * n)) 10 ltac:(lia)).
  assert (H2 := Z.mod_pos_bound (- (2 * n)) 10 ltac:(lia)).
  assert (H3 := Z.div_mod (n + 4) 5 ltac:(lia)).
  assert (H4 := Z.mod_pos_bound (n + 4) 5 ltac:(lia)).
  lia.
Qed.

Lemma rows_take_rows (idx : list nat) (y : Series) :
  rows (take_rows idx y) = Z.of_nat (List.length idx).
Proof. unfold rows, take_rows. now rewrite length_map. Qed.

Lemma rows_pos_iff (y : Series) : 0 < rows y <-> y <> [].
Proof.
  unfold rows. destruct y; cbn; split; intros; try lia; congruence.
Qed.

Lemma take_rows_nil_iff (idx : list nat) (y : Series) :
  take_rows idx y = [] <-> idx = [].
Proof.
  unfold take_rows. destruct idx; cbn; split; intros; congruence.
Qed.

Lemma is_nil_false {A : Type} (l : list A) :
  negb (Demo.is_nil l) = true -> l <> [].
Proof. destruct l; cbn; congruence. Qed.

(** The demo splitter meets the contract of a stratified split: it returns
    only what passes its own check. *)
Lemma demo_stratified_split_law (files : list (string * DataFrame))
    (joblib disk : bool) :
  stratified_split_law (Demo.host files joblib disk).
Proof.
  intros e X y a Xa Xb ya yb H Hs. cbn in H. unfold Demo.split in H.
  rewrite Hs, Nat.eqb_refl in H. cbn [negb] in H.
  set (f := Demo.in_test (test_size a) y _) in H.
  set (train_idx := filter (fun i => negb (f i)) (seq 0 (List.length y))) in H.
  set (test_idx := filter f (seq 0 (List.length y))) in H.
  destruct (Demo.split_ok (test_size a) y train_idx test_idx) eqn:Hok;
    [|discriminate].
  injection H as <- <- <- <-.
  unfold Demo.split_ok in Hok.
  apply andb_true_iff in Hok as [Hok Hbal].
  apply andb_true_iff in Hok as [Hok Hsize].
  apply andb_true_iff in Hok as [Htr Hte].
  apply is_nil_false in Htr, Hte. apply Z.eqb_eq in Hsize.
  assert (HP : Permutation (train_idx ++ test_idx) (seq 0 (List.length y)))
    by apply filter_split_Permutation.
  exists train_idx, test_idx.
  repeat (split; [assumption || reflexivity|]).
  intros c.
  destruct (in_dec cell_eq_dec c y) as [Hin|Hnot].
  - rewrite forallb_forall in Hbal.
    apply Z.ltb_lt. apply Hbal. now apply nodup_In.
  - assert (Hsum := class_count_Permutation c _ _
                      (labels_partition _ _ _ HP)).
    rewrite class_count_app in Hsum.
    assert (H0 : class_count c y = 0).
    { unfold class_count. now rewrite (proj1 (count_occ_not_In _ _ _) Hnot). }
    assert (Ha := class_count_nonneg c (take_rows train_idx y)).
    assert (Hb := class_count_nonneg c (take_rows test_idx y)).
    assert (Hlen := Permutation_length (labels_partition _ _ _ HP)).
    assert (Hpos : 0 < rows (take_rows test_idx y)).
    { apply rows_pos_iff. now rewrite take_rows_nil_iff. }
    assert (Hrows : rows (take_rows train_idx y) + rows (take_rows test_idx y)
                    = rows y).
    { rewrite <- rows_app. unfold rows. now rewrite Hlen. }
    assert (0 <= rows (take_rows train_idx y)) by (unfold rows; lia).
    replace (class_count c (take_rows test_idx y)) with 0 by lia.
    rewrite H0. rewrite !Z.mul_0_r. cbn. lia.
Qed.

(** C4, as the specification words it, fails: eleven rows cannot be cut
    80/20, and six rows of one label against five of the other cannot keep
    their ratio in any two non-empty parts.  The split returns a test part of
    three rows, two of them with label 0.  (And a table that passes the
    column check need not be split at all: with no rows, the split
    raises.) *)
Lemma uneven_table_is_not_split_80_20 :
  (forall X,
      select FEATURE_COLUMNS Demo.header_only = Ok X ->
      train_test_split (Demo.host Demo.files true true) 0 X []
        (the_split_args [])
      = Raise ValueError)
  /\
  exists X y X_train X_test y_train y_test,
    select FEATURE_COLUMNS Demo.uneven = Ok X
    /\ getitem TARGET_COLUMN Demo.uneven = Ok y
    /\ train_test_split (Demo.host Demo.files true true) 0 X y
         (the_split_args y)
       = Ok (X_train, X_test, y_train, y_test)
    /\ rows y = 11 /\ rows y_train = 8 /\ rows y_test = 3
    /\ class_count (Int 0) y = 6 /\ class_count (Int 1) y = 5
    /\ class_count (Int 0) y_test = 2 /\ class_count (Int 1) y_test = 1
    /\ class_count (Int 0) y_train = 4 /\ class_count (Int 1) y_train = 4
    /\ ~ exact_80_20 y y_train y_test
    /\ ~ keeps_ratio y y_test
    /\ ~ keeps_ratio y y_train
    /\ (forall a b : Series,
          Permutation (a ++ b) y -> a <> [] -> b <> [] ->
          ~ exact_80_20 y a b /\ ~ keeps_ratio y a /\ ~ keeps_ratio y b).
Proof.
  split; [intros X [= <-]; reflexivity|].
  do 6 eexists.
  split; [vm_compute; reflexivity|].
  split; [vm_compute; reflexivity|].
  split; [vm_compute; reflexivity|].
  repeat (split; [reflexivity|]).
  split; [|split; [|split]].
  - intros [H _]. vm_compute in H. discriminate.
  - intros H. specialize (H (Int 0)). vm_compute in H. discriminate.
  - intros H. specialize (H (Int 0)). vm_compute in H. discriminate.
  - intros a b HP Ha Hb.
    assert (Hrows : rows a + rows b = 11).
    { rewrite <- rows_app. unfold rows. now rewrite (Permutation_length HP). }
    assert (Hcount : class_count (Int 0) a + class_count (Int 0) b = 6).
    { rewrite <- class_count_app.
      now rewrite (class_count_Permutation _ _ _ HP). }
    apply rows_pos_iff in Ha, Hb.
    match goal with
    | |- ~ exact_80_20 ?y _ _ /\ _ =>
        assert (Hy : rows y = 11) by reflexivity;
        assert (Hc : class_count (Int 0) y = 6) by reflexivity
    end.
    split; [|split].
    + intros [H _]. rewrite Hy in H. lia.
    + intros H. specialize (H (Int 0)). rewrite Hy, Hc in H. lia.
    + intros H. specialize (H (Int 0)). rewrite Hy, Hc in H. lia.
Qed.

(** What the contract of a stratified split gives for the script's
    request: test size 0.2, strata the labels. *)
Lemma split_law_consequences {Model : Type} (h : Host Model) (entropy : Z)
    X y X_train X_test y_train y_test :
  stratified_split_law h ->
  train_test_split h entropy X y (the_split_args y)
  = Ok (X_train, X_test, y_train, y_test) ->
  (exists train_idx test_idx,
        Permutation (train_idx ++ test_idx) (seq 0 (List.length y))
        /\ X_train = take_rows_df train_idx X
        /\ X_test = take_rows_df test_idx X
        /\ y_train = take_rows train_idx y
        /\ y_test = take_rows test_idx y)
  /\ 0 < rows y_train /\ 0 < rows y_test
  /\ rows y_train + rows y_test = rows y
  /\ rows y_test = (rows y + 4) / 5
  /\ (forall c, class_count c y_train + class_count c y_test = class_count c y)
  /\ fair_share y y_test
  /\ fair_share y y_train
  /\ (rows y mod 5 = 0 -> exact_80_20 y y_train y_test)
  /\ (rows y mod 5 = 0 ->
      (forall c, class_count c y mod 5 = 0) ->
      keeps_ratio y y_test /\ keeps_ratio y y_train).
Proof.
  intros Hlaw Hs. unfold fair_share.
  destruct (Hlaw _ _ _ _ _ _ _ _ Hs eq_refl)
    as (train_idx & test_idx & HP & -> & -> & -> & -> & Htr & Hte & Hsize & Hbal).
  assert (HPy := labels_partition _ _ _ HP).
  assert (Hrows : rows (take_rows train_idx y) + rows (take_rows test_idx y)
                  = rows y).
  { rewrite <- rows_app. unfold rows. now rewrite (Permutation_length HPy). }
  assert (Hcount : forall c,
             class_count c (take_rows train_idx y)
             + class_count c (take_rows test_idx y) = class_count c y).
  { intros c. rewrite <- class_count_app. now apply class_count_Permutation. }
  assert (Hpos_tr : 0 < rows (take_rows train_idx y)).
  { apply rows_pos_iff. now rewrite take_rows_nil_iff. }
  assert (Hpos_te : 0 < rows (take_rows test_idx y)).
  { apply rows_pos_iff. now rewrite take_rows_nil_iff. }
  cbn [test_size the_split_args] in Hsize. rewrite fifth_rounded_up in Hsize.
  assert (Hbal_tr : forall c,
             Z.abs (rows y * class_count c (take_rows train_idx y)
                    - rows (take_rows train_idx y) * class_count c y)
             < rows y).
  { intros c. specialize (Hbal c). specialize (Hcount c).
    replace (rows y * class_count c (take_rows train_idx y)
             - rows (take_rows train_idx y) * class_count c y)
      with (- (rows y * class_count c (take_rows test_idx y)
               - rows (take_rows test_idx y) * class_count c y)) by nia.
    now rewrite Z.abs_opp. }
  split; [exists train_idx, test_idx; auto|].
  repeat (split; [assumption|]).
  assert (H5 : rows y mod 5 = 0 -> rows y = 5 * rows (take_rows test_idx y)).
  { intros Hmod. rewrite Hsize.
    assert (Hd := Z.div_mod (rows y) 5 ltac:(lia)).
    assert (Hd' := Z.div_mod (rows y + 4) 5 ltac:(lia)).
    assert (Hb := Z.mod_pos_bound (rows y + 4) 5 ltac:(lia)).
    lia. }
  split.
  { intros Hmod. specialize (H5 Hmod). unfold exact_80_20. lia. }
  intros Hmod Hclasses. specialize (H5 Hmod).
  assert (Hkeep : keeps_ratio y (take_rows test_idx y)).
  { intros c. specialize (Hbal c). specialize (Hclasses c).
    assert (Hk := Z.div_mod (class_count c y) 5 ltac:(lia)).
    rewrite Hclasses in Hk.
    set (k := class_count c y / 5) in *.
    assert (class_count c (take_rows test_idx y) = k) by nia.
    nia. }
  split; [exact Hkeep|].
  intros c. specialize (Hkeep c). specialize (Hcount c). nia.
Qed.

(** * More of the script's behaviour *)

(** ** Every run ends in one of the nine ways *)

Section EndingsOfRuns.

Context {Model : Type} (h : Host Model).

#[local] Arguments REQUIRED : simpl never.
#[local] Arguments FEATURE_COLUMNS : simpl never.
#[local] Arguments TARGET_COLUMN : simpl never.

Lemma main_loaded (argv : list string) (file : string) (entropy : Z)
    df X y :
  Loaded h argv df X y ->
  run h argv file entropy =
  match train_test_split h entropy X y (the_split_args y) with
  | Raise e =>
      (Uncaught e, [ReadCsv (csv_path argv); Split X y (the_split_args y)])
  | Ok (X_train, X_test, y_train, y_test) =>
      match fit h entropy the_forest_args X_train y_train with
      | Raise e =>
          (Uncaught e,
           [ReadCsv (csv_path argv); Split X y (the_split_args y);
            Fit the_forest_args X_train y_train])
      | Ok model =>
          match score h model X_test y_test with
          | Raise e =>
              (Uncaught e,
               [ReadCsv (csv_path argv); Split X y (the_split_args y);
                Fit the_forest_args X_train y_train; Score X_test y_test])
          | Ok acc =>
              persist h model file
                (report_trace h argv X y X_train X_test y_train y_test
                   model acc)
          end
      end
  end.
Proof.
  intros (He & Hr & Hc & HX & Hy).
  unfold run, main. step. rewrite He, Hr. fold REQUIRED.
  cbn. rewrite check_columns_find, (find_missing_none _ _ Hc), HX, Hy. cbn.
  destruct (train_test_split h entropy X y (the_split_args y))
    as [[[[X_train X_test] y_train] y_test]|e]; [|reflexivity]. cbn.
  destruct (fit h entropy the_forest_args X_train y_train) as [model|e];
    [|reflexivity]. cbn.
  destruct (score h model X_test y_test) as [acc|e]; reflexivity.
Qed.

Lemma run_Ends (argv : list string) (file : string) (entropy : Z) :
  Ends h argv file entropy
    (fst (run h argv file entropy)) (snd (run h argv file entropy)).
Proof.
  destruct (path_exists h (csv_path argv)) eqn:He.
  2:{ rewrite (main_missing_file h argv file entropy He).
      now apply ends_no_file. }
  destruct (read_csv h (csv_path argv)) as [df|e] eqn:Hr.
  2:{ rewrite (main_parse_error h argv file entropy e He Hr).
      now apply ends_parse_raises. }
  destruct (find (fun c => negb (has_column c df)) REQUIRED) as [c|] eqn:Hf.
  { rewrite (main_missing_column h argv file entropy df c He Hr Hf).
    now apply ends_missing_column with (df := df). }
  apply find_missing_forallb in Hf as Hall.
  destruct (required_split _ Hall) as [Hfeat Htarget].
  destruct (select_present _ _ Hfeat) as (X & HX & _).
  destruct (getitem_present _ _ Htarget) as (y & Hy).
  assert (HL : Loaded h argv df X y) by (repeat split; assumption).
  rewrite (main_loaded argv file entropy df X y HL).
  destruct (train_test_split h entropy X y (the_split_args y))
    as [[[[X_train X_test] y_train] y_test]|e] eqn:Hs.
  2:{ now apply ends_split_raises with (df := df). }
  destruct (fit h entropy the_forest_args X_train y_train) as [model|e] eqn:Hm.
  2:{ now apply ends_fit_raises with (df := df) (X_test := X_test)
                                      (y_test := y_test). }
  destruct (score h model X_test y_test) as [acc|e] eqn:Ha.
  2:{ now apply ends_score_raises with (df := df) (model := model). }
  assert (HT : Trained h argv entropy df X y X_train X_test y_train y_test
                 model acc) by (repeat split; assumption).
  rewrite persist_cases.
  destruct (import_joblib h) as [u|e] eqn:Hi.
  - destruct (joblib_dump h model (out_path file)) as [u'|e'] eqn:Hd.
    + now apply ends_saved with (df := df) (u := u) (u' := u').
    + now apply ends_dump_raises with (df := df) (u := u).
  - now apply ends_import_raises with (df := df).
Qed.

End EndingsOfRuns.

Lemma Trained_Loaded {Model : Type} (h : Host Model)
    (argv : list string) (entropy : Z)
    df X y X_train X_test y_train y_test model acc :
  Trained h argv entropy df X y X_train X_test y_train y_test model acc ->
  Loaded h argv df X y.
Proof. intros (He & Hr & Hc & HX & Hy & _). repeat split; assumption. Qed.

(** Destructing [run_Ends] with the outcome and the trace named. *)
Ltac by_ending h argv file entropy :=
  let o := fresh "o" in
  let t := fresh "t" in
  let Ho := fresh "Ho" in
  let Ht := fresh "Ht" in
  let H := fresh "Hends" in
  pose proof (run_Ends h argv file entropy) as H;
  remember (fst (run h argv file entropy)) as o eqn:Ho;
  remember (snd (run h argv file entropy)) as t eqn:Ht;
  clear Ho Ht;
  destruct H.

(** ** The split the run asks for, and what it is used for *)

(** The training events of a run on a table that passes the column check:
    one split; if it returns, one fit, on its training part; if that returns,
    one score, on its test part. *)
Lemma training_events {Model : Type} (h : Host Model)
    (argv : list string) (file : string) (entropy : Z) df X y :
  Loaded h argv df X y ->
  filter is_training (snd (run h argv file entropy))
  = Split X y (the_split_args y)
      :: match train_test_split h entropy X y (the_split_args y) with
         | Raise _ => []
         | Ok (X_train, X_test, y_train, y_test) =>
             Fit the_forest_args X_train y_train
               :: match fit h entropy the_forest_args X_train y_train with
                  | Raise _ => []
                  | Ok _ => [Score X_test y_test]
                  end
         end.
Proof.
  intros HL. rewrite (main_loaded h argv file entropy df X y HL).
  destruct (train_test_split h entropy X y (the_split_args y))
    as [[[[X_train X_test] y_train] y_test]|e]; [|reflexivity].
  destruct (fit h entropy the_forest_args X_train y_train) as [model|e];
    [|reflexivity].
  destruct (score h model X_test y_test) as [acc|e]; [|reflexivity].
  rewrite persist_cases. unfold report_trace.
  destruct (import_joblib h);
    [destruct (joblib_dump h model (out_path file))|]; reflexivity.
Qed.

(** C4, amended.  On a table that passes the column check, the run calls
    the split once: on the six feature columns and the label column, with
    test_size=0.2, random_state=42 and the labels as strata; so what is
    split, fitted and scored is the same in every run.  Either that call
    raises, and the run ends there with nothing fitted; or the forest is
    fitted on one part of the rows and (when the fit returns) scored on the
    other part, and of these two parts, under the contract of a stratified
    split: both are non-empty, the scored part has ceil(N/5) of the N rows
    and the fitted part the rest, every label has in each part its share of
    the rows up to one row, the cut is exactly 80/20 when N is a multiple of
    5, and it keeps the label ratio exactly when every label count is a
    multiple of 5 as well. *)
Theorem split_is_seeded_and_stratified {Model : Type} (h : Host Model)
    (argv : list string) (file : string) (entropy : Z) df X y :
  seeded_reproducible h ->
  stratified_split_law h ->
  Loaded h argv df X y ->
  (forall X' y' a,
      In (Split X' y' a) (snd (run h argv file entropy))
      <-> (X', y', a)
          = (X, y, {| test_size := 2 # 10;
                      random_state := Some 42;
                      stratify := Some y |}))
  /\ (forall entropy',
        filter is_training (snd (run h argv file entropy'))
        = filter is_training (snd (run h argv file entropy)))
  /\ ((exists e,
         train_test_split h entropy X y (the_split_args y) = Raise e
         /\ run h argv file entropy
            = (Uncaught e,
               [ReadCsv (csv_path argv); Split X y (the_split_args y)]))
      \/ exists train_idx test_idx X_train X_test y_train y_test scored,
           filter is_training (snd (run h argv file entropy))
           = Split X y (the_split_args y)
               :: Fit the_forest_args X_train y_train
               :: scored
           /\ (scored = [Score X_test y_test]
               \/ scored = []
                  /\ exists e,
                       fit h entropy the_forest_args X_train y_train = Raise e
                       /\ fst (run h argv file entropy) = Uncaught e)
           /\ Permutation (train_idx ++ test_idx) (seq 0 (List.length y))
           /\ X_train = take_rows_df train_idx X
           /\ y_train = take_rows train_idx y
           /\ X_test = take_rows_df test_idx X
           /\ y_test = take_rows test_idx y
           /\ 0 < rows y_train /\ 0 < rows y_test
           /\ rows y_test = (rows y + 4) / 5
           /\ rows y_train = rows y - (rows y + 4) / 5
           /\ fair_share y y_train
           /\ fair_share y y_test
           /\ (rows y mod 5 = 0 -> exact_80_20 y y_train y_test)
           /\ (rows y mod 5 = 0 ->
               (forall c, class_count c y mod 5 = 0) ->
               keeps_ratio y y_test /\ keeps_ratio y y_train)).
Proof.
  intros Hseed Hlaw HL.
  pose proof (training_events h argv file entropy df X y HL) as Hev.
  split.
  { intros X' y' a.
    assert (Hin : In (Split X' y' a) (snd (run h argv file entropy))
                  <-> In (Split X' y' a)
                        (filter is_training (snd (run h argv file entropy)))).
    { rewrite filter_In. cbn. tauto. }
    rewrite Hin, Hev. clear Hin Hev. fold (the_split_args y).
    destruct (train_test_split h entropy X y (the_split_args y))
      as [[[[X_train X_test] y_train] y_test]|e];
      [destruct (fit h entropy the_forest_args X_train y_train)|];
      cbn; (split; [intros H; repeat destruct H as [H|H];
                    try discriminate H; try contradiction;
                    now injection H as <- <- <-
                   |intros [= -> -> ->]; now left]). }
  split.
  { intros entropy'.
    now rewrite (run_entropy_irrelevant h argv file entropy' entropy Hseed). }
  destruct (train_test_split h entropy X y (the_split_args y))
    as [[[[X_train X_test] y_train] y_test]|e] eqn:Hs.
  2:{ left. exists e. split; [reflexivity|].
      now rewrite (main_loaded h argv file entropy df X y HL), Hs. }
  right.
  destruct (split_law_consequences h entropy _ _ _ _ _ _ Hlaw Hs)
    as ((train_idx & test_idx & HP & HXa & HXb & Hya & Hyb)
        & Hpa & Hpb & Hsum & Hsize & _ & Hfb & Hfa & Hexact & Hkeep).
  exists train_idx, test_idx, X_train, X_test, y_train, y_test.
  destruct (fit h entropy the_forest_args X_train y_train) as [model|e] eqn:Hf.
  - exists [Score X_test y_test].
    split; [exact Hev|]. split; [now left|].
    repeat (split; [first [assumption | lia]|]). assumption.
  - exists [].
    split; [exact Hev|].
    split.
    { right. split; [reflexivity|]. exists e. split; [reflexivity|].
      now rewrite (main_loaded h argv file entropy df X y HL), Hs, Hf. }
    repeat (split; [first [assumption | lia]|]). assumption.
Qed.

Lemma split_is_seeded_and_stratified_witness :
  Loaded (Demo.host Demo.files true true) ["train_risk_model.py"]
    Demo.sample Demo.sample_X Demo.sample_y
  /\ exists X_train y_train y_test scored,
       filter is_training
         (snd (run (Demo.host Demo.files true true)
                 ["train_risk_model.py"] Demo.script 7))
       = Split Demo.sample_X Demo.sample_y (the_split_args Demo.sample_y)
           :: Fit the_forest_args X_train y_train
           :: scored
       /\ rows y_test = (rows Demo.sample_y + 4) / 5
       /\ fair_share Demo.sample_y y_test
       /\ exact_80_20 Demo.sample_y y_train y_test.
Proof.
  assert (HL : Loaded (Demo.host Demo.files true true)
                 ["train_risk_model.py"]
                 Demo.sample Demo.sample_X Demo.sample_y)
    by (repeat split; reflexivity).
  split; [exact HL|].
  destruct (split_is_seeded_and_stratified
              (Demo.host Demo.files true true)
              ["train_risk_model.py"] Demo.script 7
              Demo.sample Demo.sample_X Demo.sample_y
              (demo_seeded_reproducible Demo.files true true)
              (demo_stratified_split_law Demo.files true true) HL)
    as (_ & _ & [(e & Hraise & _)
                |(train_idx & test_idx & Xa & Xb & ya & yb & scored
                  & Hev & _ & _ & _ & _ & _ & _ & _ & _ & Hsize & _ & _
                  & Hfair & Hexact & _)]).
  - vm_compute in Hraise. discriminate Hraise.
  - exists Xa, ya, yb, scored.
    split; [exact Hev|]. split; [exact Hsize|]. split; [exact Hfair|].
    apply Hexact. reflexivity.
Defined.

(** ** The order of the calls *)

(** X1.  Whatever the libraries do, a run calls into them in one fixed
    order: read_csv, train_test_split, fit, score, the import of joblib,
    dump.  It may stop early, but it never skips a call, repeats one, or
    makes them in another order. *)
Theorem calls_follow_the_pipeline {Model : Type} (h : Host Model)
    (argv : list string) (file : string) (entropy : Z) :
  exists rest,
    PIPELINE = (calls (snd (run h argv file entropy)) ++ rest)%list.
Proof.
  by_ending h argv file entropy; unfold calls, report_trace;
    rewrite ?flat_map_app; cbn; eexists; reflexivity.
Qed.

(** X2.  The split is called exactly when the file exists, parses, and has
    the seven columns: validation is a gate in front of all training. *)
Theorem split_is_reached_iff_loaded {Model : Type} (h : Host Model)
    (argv : list string) (file : string) (entropy : Z) :
  (exists X y a, In (Split X y a) (snd (run h argv file entropy)))
  <-> (exists df X y, Loaded h argv df X y).
Proof.
  split.
  - intros (X0 & y0 & a0 & Hin).
    by_ending h argv file entropy;
      try (exists df, X, y; eauto using Trained_Loaded; fail).
    + cbn in Hin. intuition discriminate.
    + cbn in Hin. intuition discriminate.
    + cbn in Hin. intuition discriminate.
  - intros (df & X & y & HL).
    rewrite (main_loaded h argv file entropy df X y HL).
    exists X, y, (the_split_args y).
    destruct (train_test_split h entropy X y (the_split_args y))
      as [[[[X_train X_test] y_train] y_test]|e]; [|cbn; tauto].
    destruct (fit h entropy the_forest_args X_train y_train) as [model|e];
      [|cbn; tauto].
    destruct (score h model X_test y_test) as [acc|e]; [|cbn; tauto].
    rewrite persist_cases. unfold report_trace.
    destruct (import_joblib h);
      [destruct (joblib_dump h model (out_path file))|]; cbn; tauto.
Qed.

(** ** Where an uncaught exception comes from *)

Lemma after_except_Uncaught (e0 e : exn) :
  after_except e0 = Uncaught e -> e0 = e /\ isinstance_ImportError e = false.
Proof.
  unfold after_except. destruct (isinstance_ImportError e0) eqn:E;
    [discriminate|]. intros [= <-]. auto.
Qed.

(** X3.  A run that ends in an uncaught exception got it from a library
    call, never from the script's own column selection.  Either the
    existence check, the parse, the split, the fit or the score raised it, and
    then nothing at all was printed; or the import of joblib or the dump
    raised it, it is not an [ImportError], and the two report lines were
    printed before. *)
Theorem uncaught_comes_from_a_library_call {Model : Type} (h : Host Model)
    (stat_error : Path -> option exn)
    (argv : list string) (file : string) (entropy : Z) (e : exn) :
  fst (run_checked h stat_error argv file entropy) = Uncaught e ->
  (stdout (snd (run_checked h stat_error argv file entropy)) = []
   /\ (path_exists_checked h stat_error (csv_path argv) = Raise e
       \/ path_exists_checked h stat_error (csv_path argv) = Ok true
          /\ (read_csv h (csv_path argv) = Raise e
              \/ exists df X y,
                   Loaded h argv df X y
                   /\ (train_test_split h entropy X y (the_split_args y)
                       = Raise e
                       \/ exists X_train X_test y_train y_test,
                            train_test_split h entropy X y (the_split_args y)
                            = Ok (X_train, X_test, y_train, y_test)
                            /\ (fit h entropy the_forest_args X_train y_train
                                = Raise e
                                \/ exists model,
                                     fit h entropy the_forest_args
                                       X_train y_train
                                     = Ok model
                                     /\ score h model X_test y_test
                                        = Raise e)))))
  \/ (path_exists_checked h stat_error (csv_path argv) = Ok true
      /\ exists df X y X_train X_test y_train y_test model acc,
        Trained h argv entropy df X y X_train X_test y_train y_test model acc
        /\ stdout (snd (run_checked h stat_error argv file entropy))
           = [ "Test accuracy: " ++ format_4f h acc;
               importances_line h (feature_importances_ h model) ]
        /\ isinstance_ImportError e = false
        /\ (import_joblib h = Raise e
            \/ exists u, import_joblib h = Ok u
                         /\ joblib_dump h model (out_path file) = Raise e)).
Proof.
  unfold run_checked, path_exists_checked.
  destruct (stat_error (csv_path argv)) as [e0|].
  { intros [= <-]. left. split; [reflexivity|]. now left. }
  by_ending h argv file entropy; intros Hout; try discriminate Hout.
  - injection Hout as <-. left. split; [reflexivity|]. right.
    split; [now f_equal|]. now left.
  - injection Hout as <-. left. split; [reflexivity|]. right.
    split; [destruct H as [-> _]; reflexivity|]. right.
    exists df, X, y. auto.
  - injection Hout as <-. left. split; [reflexivity|]. right.
    split; [destruct H as [-> _]; reflexivity|]. right.
    exists df, X, y. split; [assumption|]. right.
    exists X_train, X_test, y_train, y_test. auto.
  - injection Hout as <-. left. split; [reflexivity|]. right.
    split; [destruct H as [-> _]; reflexivity|]. right.
    exists df, X, y. split; [assumption|]. right.
    exists X_train, X_test, y_train, y_test. split; [assumption|]. right.
    exists model. auto.
  - apply after_except_Uncaught in Hout as [-> Hnot]. right.
    split; [destruct H as [-> _]; reflexivity|].
    exists df, X, y, X_train, X_test, y_train, y_test, model, acc.
    split; [assumption|]. split; [reflexivity|]. split; [assumption|].
    now left.
  - apply after_except_Uncaught in Hout as [-> Hnot]. right.
    split; [destruct H as [-> _]; reflexivity|].
    exists df, X, y, X_train, X_test, y_train, y_test, model, acc.
    split; [assumption|]. split; [reflexivity|]. split; [assumption|].
    right. exists u. auto.
Qed.

Lemma uncaught_comes_from_a_library_call_witness :
  fst (run_checked (Demo.host Demo.files true true)
         (fun p => if String.eqb (Demo.str p) "data/locked.csv"
                   then Some OSError else None)
         ["train_risk_model.py"; "data/locked.csv"] Demo.script 0)
  = Uncaught OSError
  /\ stdout (snd (run_checked (Demo.host Demo.files true true)
                    (fun p => if String.eqb (Demo.str p) "data/locked.csv"
                              then Some OSError else None)
                    ["train_risk_model.py"; "data/locked.csv"]
                    Demo.script 0)) = []
  /\ fst (run_checked (Demo.host Demo.files true true)
            (fun p => if String.eqb (Demo.str p) "data/locked.csv"
                      then Some OSError else None)
            ["train_risk_model.py"; "data/empty.csv"] Demo.script 0)
     = Uncaught ValueError
  /\ (stdout (snd (run_checked (Demo.host Demo.files true true)
                     (fun p => if String.eqb (Demo.str p) "data/locked.csv"
                               then Some OSError else None)
                     ["train_risk_model.py"; "data/empty.csv"]
                     Demo.script 0)) = []
      \/ exists model acc,
           stdout (snd (run_checked (Demo.host Demo.files true true)
                          (fun p => if String.eqb (Demo.str p)
                                         "data/locked.csv"
                                    then Some OSError else None)
                          ["train_risk_model.py"; "data/empty.csv"]
                          Demo.script 0))
           = [ "Test accuracy: " ++ Demo.fmt4 acc;
               importances_line (Demo.host Demo.files true true)
                 (Demo.importances model) ]).
Proof.
  split; [reflexivity|]. split; [reflexivity|]. split; [reflexivity|].
  destruct (uncaught_comes_from_a_library_call
              (Demo.host Demo.files true true)
              (fun p => if String.eqb (Demo.str p) "data/locked.csv"
                        then Some OSError else None)
              ["train_risk_model.py"; "data/empty.csv"] Demo.script 0
              ValueError eq_refl)
    as [[Hquiet _]
       |(_ & df & X & y & Xa & Xb & ya & yb & m & acc & _ & Hout & _)].
  - left. exact Hquiet.
  - right. exists m, acc. exact Hout.
Defined.

(** ** Persistence when it works *)

(** X4.  When everything up to the report has returned, joblib imports and
    the dump returns, the run ends normally: the model is dumped once, to
    risk_model.joblib in the directory of the script (wherever the input
    came from), after the report; and standard output has exactly three
    lines, the last one naming that file. *)
Theorem model_is_saved_beside_the_script {Model : Type} (h : Host Model)
    (argv : list string) (file : string) (entropy : Z)
    df X y X_train X_test y_train y_test model acc (u u' : unit) :
  Trained h argv entropy df X y X_train X_test y_train y_test model acc ->
  import_joblib h = Ok u ->
  joblib_dump h model (joinpath (parent (PathOf file)) "risk_model.joblib")
  = Ok u' ->
  run h argv file entropy
  = (Normal tt,
     (report_trace h argv X y X_train X_test y_train y_test model acc
        ++ [ ImportJoblib;
             Dump (joinpath (parent (PathOf file)) "risk_model.joblib");
             Print ("Model saved to "
                      ++ path_str h (joinpath (parent (PathOf file))
                                       "risk_model.joblib")) ])%list)
  /\ exit_code (fst (run h argv file entropy)) = 0
  /\ artifacts (snd (run h argv file entropy))
     = [joinpath (parent (PathOf file)) "risk_model.joblib"]
  /\ stdout (snd (run h argv file entropy))
     = [ "Test accuracy: " ++ format_4f h acc;
         importances_line h (feature_importances_ h model);
         "Model saved to "
           ++ path_str h (joinpath (parent (PathOf file)) "risk_model.joblib") ].
Proof.
  intros HT Hi Hd.
  rewrite (main_trained h argv file entropy _ _ _ _ _ _ _ _ _ HT).
  rewrite persist_cases, Hi. unfold out_path. rewrite Hd.
  repeat split; reflexivity.
Qed.

Lemma model_is_saved_beside_the_script_witness :
  stdout (snd (run (Demo.host Demo.files true true)
                 ["train_risk_model.py"] Demo.script 0))
  = [ "Test accuracy: 0.5000";
      "Feature importances: {'totalCount': 0.1667, 'failureCount': 0.1667, 'failureRate': 0.1667, 'countLast1Min': 0.1667, 'avgAmount': 0.1667, 'maxAmount': 0.1667}";
      "Model saved to scripts/risk_model.joblib" ].
Proof.
  exact (proj2 (proj2 (proj2
           (model_is_saved_beside_the_script
              (Demo.host Demo.files true true)
              ["train_risk_model.py"] Demo.script 0
              _ _ _ _ _ _ _ _ _ tt tt
              (sample_trained ["train_risk_model.py"] 0 true true eq_refl)
              eq_refl eq_refl)))).
Defined.

(** X5.  No run writes anything but the model file, and none writes it
    early: either no dump is attempted, or exactly one is, to
    risk_model.joblib beside the script, after every step up to the report
    returned and joblib was imported.  In particular a run that ends through
    [sys.exit] (always with status 1) attempts no dump. *)
Theorem dump_only_after_the_report {Model : Type} (h : Host Model)
    (argv : list string) (file : string) (entropy : Z) :
  (artifacts (snd (run h argv file entropy)) = []
   \/ (artifacts (snd (run h argv file entropy)) = [out_path file]
       /\ exists df X y X_train X_test y_train y_test model acc u suffix,
            Trained h argv entropy df X y X_train X_test y_train y_test
              model acc
            /\ import_joblib h = Ok u
            /\ snd (run h argv file entropy)
               = (report_trace h argv X y X_train X_test y_train y_test
                    model acc
                    ++ ImportJoblib :: Dump (out_path file) :: suffix)%list))
  /\ (forall code,
        fst (run h argv file entropy) = Exited code ->
        code = 1 /\ artifacts (snd (run h argv file entropy)) = []).
Proof.
  by_ending h argv file entropy.
  - split; [now left|]. intros code [= <-]. auto.
  - split; [now left|]. discriminate.
  - split; [now left|]. intros code [= <-]. auto.
  - split; [now left|]. discriminate.
  - split; [now left|]. discriminate.
  - split; [now left|]. discriminate.
  - split; [now left|]. unfold after_except.
    destruct (isinstance_ImportError e); discriminate.
  - split.
    + right. split; [reflexivity|].
      exists df, X, y, X_train, X_test, y_train, y_test, model, acc, u, [].
      auto.
    + unfold after_except. destruct (isinstance_ImportError e); discriminate.
  - split.
    + right. split; [reflexivity|].
      exists df, X, y, X_train, X_test, y_train, y_test, model, acc, u.
      eexists. split; [eassumption|]. split; [assumption|]. reflexivity.
    + discriminate.
Qed.

(** ** What the model is trained and scored on *)

(** X6.  Provided the split keeps the columns of the table it is given,
    every table handed to the split, to the fit and to the score has exactly
    the six feature columns, in their fixed order: the label column never
    reaches the model as a feature, and neither does any other column of the
    file. *)
Theorem only_the_features_reach_the_model {Model : Type} (h : Host Model)
    (argv : list string) (file : string) (entropy : Z) :
  split_keeps_columns h ->
  forall ev X,
    In ev (snd (run h argv file entropy)) ->
    In X (features_of ev) ->
    columns X = FEATURE_COLUMNS /\ ~ In TARGET_COLUMN (columns X).
Proof.
  intros Hkeep.
  assert (Hfeat : forall X, columns X = FEATURE_COLUMNS ->
                    columns X = FEATURE_COLUMNS
                    /\ ~ In TARGET_COLUMN (columns X)).
  { intros X ->. split; [reflexivity|].
    cbn. intuition discriminate. }
  assert (Hloaded : forall df X y,
             Loaded h argv df X y -> columns X = FEATURE_COLUMNS).
  { intros df X y (_ & _ & _ & HX & _). now apply select_columns in HX. }
  assert (Hparts : forall df X y Xa Xb ya yb,
             Loaded h argv df X y ->
             train_test_split h entropy X y (the_split_args y)
             = Ok (Xa, Xb, ya, yb) ->
             columns Xa = FEATURE_COLUMNS /\ columns Xb = FEATURE_COLUMNS).
  { intros df X y Xa Xb ya yb HL Hs.
    destruct (Hkeep _ _ _ _ _ _ _ _ Hs) as [-> ->].
    split; eapply Hloaded; eassumption. }
  assert (Htrained : forall df X y Xa Xb ya yb m acc,
             Trained h argv entropy df X y Xa Xb ya yb m acc ->
             columns X = FEATURE_COLUMNS
             /\ columns Xa = FEATURE_COLUMNS /\ columns Xb = FEATURE_COLUMNS).
  { intros df X y Xa Xb ya yb m acc HT.
    assert (HL := Trained_Loaded _ _ _ _ _ _ _ _ _ _ _ _ HT).
    destruct HT as (_ & _ & _ & _ & _ & Hs & _).
    split; [eapply Hloaded; eassumption|]. eapply Hparts; eassumption. }
  assert (Hall : Forall (fun ev => forall X, In X (features_of ev) ->
                                      columns X = FEATURE_COLUMNS)
                   (snd (run h argv file entropy))).
  { by_ending h argv file entropy; unfold report_trace;
      cbn [map file_not_found_lines];
      rewrite ?Forall_app; repeat split;
      repeat (apply Forall_cons || apply Forall_nil).
    all: intros X1 HX1; cbn in HX1; try contradiction.
    all: destruct HX1 as [<-|[]].
    all: first [ eapply Hloaded; eassumption
               | eapply proj1, Hparts; eassumption
               | eapply proj2, Hparts; eassumption
               | eapply proj1, Htrained; eassumption
               | eapply proj1, proj2, Htrained; eassumption
               | eapply proj2, proj2, Htrained; eassumption ]. }
  intros ev X0 Hin HX0. apply Hfeat.
  rewrite Forall_forall in Hall. now apply (Hall ev Hin).
Qed.

Lemma only_the_features_reach_the_model_witness :
  split_keeps_columns (Demo.host Demo.files true true)
  /\ In (Fit the_forest_args Demo.sample_X_train Demo.sample_y_train)
       (snd (run (Demo.host Demo.files true true)
               ["train_risk_model.py"] Demo.script 0))
  /\ columns Demo.sample_X_train = FEATURE_COLUMNS
  /\ ~ In TARGET_COLUMN (columns Demo.sample_X_train).
Proof.
  split; [apply demo_split_keeps_columns|].
  assert (Hin : In (Fit the_forest_args Demo.sample_X_train
                      Demo.sample_y_train)
                  (snd (run (Demo.host Demo.files true true)
                          ["train_risk_model.py"] Demo.script 0))).
  { vm_compute. tauto. }
  split; [exact Hin|].
  exact (only_the_features_reach_the_model
           (Demo.host Demo.files true true)
           ["train_risk_model.py"] Demo.script 0
           (demo_split_keeps_columns Demo.files true true)
           _ _ Hin (or_introl eq_refl)).
Defined.

(** ** Validation looks at the header only *)

Lemma has_column_columns (c : string) (df df' : DataFrame) :
  columns df = columns df' -> has_column c df = has_column c df'.
Proof. unfold has_column. now intros ->. Qed.

Lemma find_missing_columns (cols : list string) (df df' : DataFrame) :
  columns df = columns df' ->
  find (fun c => negb (has_column c df)) cols
  = find (fun c => negb (has_column c df')) cols.
Proof.
  intros Hcols. induction cols as [|c cols IH]; cbn; [reflexivity|].
  now rewrite (has_column_columns c df df' Hcols), IH.
Qed.

(** X7.  When a required column is missing, the run is decided by the
    header alone: two tables with the same column names, whatever their rows,
    give the same outcome and the same diagnostic, and neither the random
    state nor anything after the check plays a part. *)
Theorem validation_reads_only_the_header {Model : Type} (h : Host Model)
    (argv : list string) (file : string) (entropy entropy' : Z)
    (df df' : DataFrame) :
  columns df = columns df' ->
  (exists c, In c REQUIRED /\ has_column c df = false) ->
  run (with_table h df) argv file entropy
  = run (with_table h df') argv file entropy'.
Proof.
  intros Hcols (c & Hin & Hc).
  destruct (path_exists h (csv_path argv)) eqn:He.
  - destruct (find_missing_some _ _ _ Hin Hc) as (col & Hf & _ & _).
    assert (Hf' : find (fun c => negb (has_column c df')) REQUIRED = Some col).
    { rewrite <- Hf. symmetry. now apply find_missing_columns. }
    rewrite (main_missing_column (with_table h df) argv file entropy
               df col He eq_refl Hf).
    rewrite (main_missing_column (with_table h df') argv file entropy'
               df' col He eq_refl Hf').
    unfold missing_message. now rewrite Hcols.
  - rewrite (main_missing_file (with_table h df) argv file entropy He).
    rewrite (main_missing_file (with_table h df') argv file entropy' He).
    reflexivity.
Qed.

Lemma validation_reads_only_the_header_witness :
  run (with_table (Demo.host Demo.files true true) Demo.two_missing)
    ["train_risk_model.py"] Demo.script 0
  = run (with_table (Demo.host Demo.files true true)
           (map (fun c => (fst c, Demo.ints [1; 2; 3])) Demo.two_missing))
      ["train_risk_model.py"] Demo.script 1.
Proof.
  refine (validation_reads_only_the_header
            (Demo.host Demo.files true true)
            ["train_risk_model.py"] Demo.script 0 1
            Demo.two_missing
            (map (fun c => (fst c, Demo.ints [1; 2; 3])) Demo.two_missing)
            eq_refl _).
  exists "label". split; [cbn; tauto|reflexivity].
Defined.

(** ** Everything a run can print *)

(** X8.  Standard output of a run is one of five texts and nothing else:
    nothing (a library call raised before the report); the three
    file-not-found lines; one missing-column line; the accuracy and
    importances lines; or those two followed by the "Model saved" line.  The
    report lines never appear one without the other, and never together with
    a diagnostic. *)
Theorem stdout_has_five_shapes {Model : Type} (h : Host Model)
    (argv : list string) (file : string) (entropy : Z) :
  stdout (snd (run h argv file entropy)) = []
  \/ stdout (snd (run h argv file entropy))
     = file_not_found_lines (path_str h (csv_path argv))
  \/ (exists df col,
        read_csv h (csv_path argv) = Ok df
        /\ In col REQUIRED /\ has_column col df = false
        /\ stdout (snd (run h argv file entropy)) = [missing_message col df])
  \/ (exists df X y X_train X_test y_train y_test model acc,
        Trained h argv entropy df X y X_train X_test y_train y_test model acc
        /\ (stdout (snd (run h argv file entropy))
            = [ "Test accuracy: " ++ format_4f h acc;
                importances_line h (feature_importances_ h model) ]
            \/ stdout (snd (run h argv file entropy))
               = [ "Test accuracy: " ++ format_4f h acc;
                   importances_line h (feature_importances_ h model);
                   "Model saved to " ++ path_str h (out_path file) ])).
Proof.
  by_ending h argv file entropy.
  - right; left. reflexivity.
  - left. reflexivity.
  - right; right; left. exists df, c.
    match goal with
    | H : find _ REQUIRED = Some c |- _ =>
        apply find_missing_in in H as [Hin Hc]
    end.
    auto.
  - left. reflexivity.
  - left. reflexivity.
  - left. reflexivity.
  - right; right; right.
    exists df, X, y, X_train, X_test, y_train, y_test, model, acc.
    split; [assumption|]. left. reflexivity.
  - right; right; right.
    exists df, X, y, X_train, X_test, y_train, y_test, model, acc.
    split; [assumption|]. left. reflexivity.
  - right; right; right.
    exists df, X, y, X_train, X_test, y_train, y_test, model, acc.
    split; [assumption|]. right. reflexivity.
Qed.
